(** * The beacon-chain coordinator of lodestar: [chain/chain.ts]

    A shallow embedding of [BeaconChain] (packages/lodestar/src/chain/chain.ts):
    the genesis bootstrap ([initializeBeaconChain], [checkGenesis],
    [waitForState]), the tail of [start] and the cached fork digest.

    The coordinator is a stateful object whose methods are [async]; it is
    modelled by explicit state passing over a record [BeaconChain], a
    completion type for promises that fulfil or reject, and, for the eth1
    listener, a small event machine whose steps are the points at which the
    JavaScript event loop hands control to the coordinator. *)

From stdpp Require Import gmap list strings.
From Stdlib Require Import Strings.Byte NArith.

Set Default Proof Using "Type".
Open Scope N_scope.

(** ** Bytes and roots *)

#[global] Instance byte_eq_dec : EqDecision byte := Byte.byte_eq_dec.

#[global] Instance byte_countable : Countable byte :=
  inj_countable Byte.to_N Byte.of_N Byte.of_to_N.

(** A [Uint8Array] / [Buffer]. *)
Abbreviation Bytes := (list byte) (only parsing).
(** 32-byte SSZ hash-tree-root. *)
Abbreviation Root := (list byte) (only parsing).
Abbreviation Version := (list byte) (only parsing).
Abbreviation ForkDigest := (list byte) (only parsing).
Abbreviation Slot := N (only parsing).
Abbreviation Epoch := N (only parsing).

(** [Buffer.alloc(n)]: [n] zero bytes. *)
Definition Buffer_alloc (n : nat) : Bytes := replicate n x00.

(** [config.types.Root.equals]: bytewise equality. *)
Definition Root_equals (a b : Root) : bool := bool_decide (a = b).

(** ** Promise outcomes *)

Inductive DbWrite :=
| StoreChainHead
| SetJustifiedBlockRoot
| SetFinalizedBlockRoot
| SetJustifiedStateRoot
| SetFinalizedStateRoot
| SetDepositDataRootList.

#[global] Instance DbWrite_eq_dec : EqDecision DbWrite.
Proof. solve_decision. Defined.

Inductive Error :=
| GenesisMismatch
    (* Error("A genesis state with different configuration was detected! Please clean the database.") *)
| DbWriteRejected (w : DbWrite)
| TypeError (* property access on null *).

(** What an awaited promise gives back: a value or a thrown error. *)
Inductive Completion (A : Type) :=
| Fulfilled (a : A)
| Rejected (e : Error).
Arguments Fulfilled {A} a.
Arguments Rejected {A} e.

(** The result of a call that may throw. *)
Inductive Outcome (A : Type) :=
| Returns (a : A)
| Throws.
Arguments Returns {A} a.
Arguments Throws {A}.

(** ** Consensus types (the fields the coordinator touches) *)

Record Fork := {
  previousVersion : Version;
  currentVersion : Version;
  fork_epoch : Epoch;
}.

Record Validator := {
  pubkey : Bytes;
  effectiveBalance : N;
}.

Record BeaconState := {
  genesisTime : N;
  genesisValidatorsRoot : Root;
  fork : Fork;
  validators : list Validator;
  eth1DepositIndex : N;
}.

Record Checkpoint := {
  cp_epoch : Epoch;
  cp_root : Root;
}.

(** The argument of [forkChoice.addBlock]. *)
Record BlockSummary := {
  bs_slot : Slot;
  blockRootBuf : Root;
  stateRootBuf : Root;
  parentRootBuf : Root;
  justifiedCheckpoint : Checkpoint;
  finalizedCheckpoint : Checkpoint;
}.

(** [ethers/providers] [Block]: the fields [checkGenesis] reads. *)
Record Eth1Block := {
  hash : string;
  number : N;
  timestamp : N;
}.

(** Lines the coordinator hands to [logger]. *)
Inductive LogMsg :=
| LogStartingChain
| LogChainStarted
| LogInitializing (stateRoot blockRoot : Root)
| LogInitialized
| LogNotStarted
| LogChecking (h : string)
| LogFoundDeposits (n : nat)
| LogNotValidGenesis (h : string)
| LogInitializingWith (h : string)
| LogGenesisReady (nvalidators : nat).

(** The closure installed by [waitForState]; the coordinator creates no
    other listener. *)
Inductive Listener := GenesisListener.

#[global] Instance Listener_eq_dec : EqDecision Listener.
Proof. solve_decision. Defined.

(** [ILMDGHOST]: the fork-choice engine as the coordinator sees it. *)
Class ILMDGHOST (FC : Type) := {
  fc_start : N -> FC -> FC;
  addBlock : BlockSummary -> FC -> FC;
  head : FC -> Root;
  headStateRoot : FC -> Root;
}.

Section Chain.

(** Types of the SSZ library that the coordinator only passes around. *)
Context {BeaconBlockBody DepositData : Type}.

Record BeaconBlock := {
  slot : Slot;
  proposerIndex : N;
  parentRoot : Root;
  stateRoot : Root;
  body : BeaconBlockBody;
}.

Record SignedBeaconBlock := {
  message : BeaconBlock;
  signature : Bytes;
}.

Record Deposit := {
  proof : list Root;
  data : DepositData;
}.

(** [IBeaconConfig]: [params] and the hashers of [types]. *)
Record IBeaconConfig := {
  SLOTS_PER_EPOCH : N;
  BeaconState_hashTreeRoot : BeaconState -> Root;
  BeaconBlock_hashTreeRoot : BeaconBlock -> Root;
  DepositData_hashTreeRoot : DepositData -> Root;
}.

(** ** Storage

    Modelled from the spec: the storage contract [IBeaconDb] (its
    implementation is not among the sources), with the namespaces of the
    storage contract: [block[root]], [state[root]], [block_by_slot[slot]],
    the four [chain.*] roots, the [chain.head] pointer and
    [deposit_data_root_list[eth1_deposit_index]]. *)
Record Db := {
  db_block : gmap Root SignedBeaconBlock;
  db_state : gmap Root BeaconState;
  db_block_by_slot : gmap N Root;
  chain_head : option Root;
  justifiedBlockRoot : option Root;
  finalizedBlockRoot : option Root;
  justifiedStateRoot : option Root;
  finalizedStateRoot : option Root;
  db_depositDataRootList : gmap N (list Root);
}.

Definition Db_empty : Db :=
  {| db_block := ∅; db_state := ∅; db_block_by_slot := ∅; chain_head := None;
     justifiedBlockRoot := None; finalizedBlockRoot := None;
     justifiedStateRoot := None; finalizedStateRoot := None;
     db_depositDataRootList := ∅ |}.

(** Modelled from the spec: [db.block.getBlockBySlot], through
    [block_by_slot[slot] → root] and [block[root]]; reads are snapshots of
    the last committed write and do not fail. *)
Definition getBlockBySlot (s : Slot) (d : Db) : option SignedBeaconBlock :=
  db_block_by_slot d !! s ≫= λ r, db_block d !! r.

(** Modelled from the spec: [db.state.get], [state[root]]; [None] is the
    [null] of a missing state. *)
Definition state_get (r : Root) (d : Db) : option BeaconState :=
  db_state d !! r.

Definition block_get (r : Root) (d : Db) : option SignedBeaconBlock :=
  db_block d !! r.

(** Modelled from the spec: what [store_chain_head(block, state)] commits,
    the [{block, state, chain.head}] triple, in one piece. *)
Definition commit_storeChainHead (cfg : IBeaconConfig)
    (b : SignedBeaconBlock) (s : BeaconState) (d : Db) : Db :=
  let r := BeaconBlock_hashTreeRoot cfg (message b) in
  {| db_block := <[r := b]> (db_block d);
     db_state := <[BeaconState_hashTreeRoot cfg s := s]> (db_state d);
     db_block_by_slot := db_block_by_slot d;
     chain_head := Some r;
     justifiedBlockRoot := justifiedBlockRoot d;
     finalizedBlockRoot := finalizedBlockRoot d;
     justifiedStateRoot := justifiedStateRoot d;
     finalizedStateRoot := finalizedStateRoot d;
     db_depositDataRootList := db_depositDataRootList d |}.

Definition commit_setJustifiedBlockRoot (r : Root) (d : Db) : Db :=
  {| db_block := db_block d; db_state := db_state d;
     db_block_by_slot := db_block_by_slot d; chain_head := chain_head d;
     justifiedBlockRoot := Some r;
     finalizedBlockRoot := finalizedBlockRoot d;
     justifiedStateRoot := justifiedStateRoot d;
     finalizedStateRoot := finalizedStateRoot d;
     db_depositDataRootList := db_depositDataRootList d |}.

Definition commit_setFinalizedBlockRoot (r : Root) (d : Db) : Db :=
  {| db_block := db_block d; db_state := db_state d;
     db_block_by_slot := db_block_by_slot d; chain_head := chain_head d;
     justifiedBlockRoot := justifiedBlockRoot d;
     finalizedBlockRoot := Some r;
     justifiedStateRoot := justifiedStateRoot d;
     finalizedStateRoot := finalizedStateRoot d;
     db_depositDataRootList := db_depositDataRootList d |}.

Definition commit_setJustifiedStateRoot (r : Root) (d : Db) : Db :=
  {| db_block := db_block d; db_state := db_state d;
     db_block_by_slot := db_block_by_slot d; chain_head := chain_head d;
     justifiedBlockRoot := justifiedBlockRoot d;
     finalizedBlockRoot := finalizedBlockRoot d;
     justifiedStateRoot := Some r;
     finalizedStateRoot := finalizedStateRoot d;
     db_depositDataRootList := db_depositDataRootList d |}.

Definition commit_setFinalizedStateRoot (r : Root) (d : Db) : Db :=
  {| db_block := db_block d; db_state := db_state d;
     db_block_by_slot := db_block_by_slot d; chain_head := chain_head d;
     justifiedBlockRoot := justifiedBlockRoot d;
     finalizedBlockRoot := finalizedBlockRoot d;
     justifiedStateRoot := justifiedStateRoot d;
     finalizedStateRoot := Some r;
     db_depositDataRootList := db_depositDataRootList d |}.

Definition commit_depositDataRootList_set (i : N) (l : list Root) (d : Db) : Db :=
  {| db_block := db_block d; db_state := db_state d;
     db_block_by_slot := db_block_by_slot d; chain_head := chain_head d;
     justifiedBlockRoot := justifiedBlockRoot d;
     finalizedBlockRoot := finalizedBlockRoot d;
     justifiedStateRoot := justifiedStateRoot d;
     finalizedStateRoot := finalizedStateRoot d;
     db_depositDataRootList := <[i := l]> (db_depositDataRootList d) |}.

(** A storage write as a promise: it either commits and fulfils, or rejects
    and leaves storage as it was (operations are fail-loud). Which writes
    the backend rejects is a property of the backend, [rejects]. *)
Definition DbPromise := Db -> Completion unit * Db.

Definition db_write (rejects : DbWrite -> bool) (w : DbWrite) (commit : Db -> Db)
  : DbPromise :=
  λ d, if rejects w then (Rejected (DbWriteRejected w), d)
       else (Fulfilled tt, commit d).

(** [Promise.all] over writes that were all issued when the array literal
    was evaluated: every write runs to its own outcome, and the combined
    promise rejects with a rejection of one of them, if any. *)
Fixpoint Promise_all (ps : list DbPromise) (d : Db) : Completion unit * Db :=
  match ps with
  | [] => (Fulfilled tt, d)
  | p :: ps =>
      let '(r, d1) := p d in
      let '(rs, d2) := Promise_all ps d1 in
      (match r with Rejected e => Rejected e | Fulfilled _ => rs end, d2)
  end.

(** ** Collaborators

    What the coordinator receives through its constructor and imports, as
    far as the bootstrap uses it. None of these is defined in [chain.ts]. *)
Record Eth1Notifier := {
  (* deposits seen on the eth1 chain, oldest first, with their block number *)
  depositLog : list (N * DepositData);
  (* listeners of the "block" event, in order of registration *)
  blockListeners : list Listener;
}.

Class Collaborators := {
  config : IBeaconConfig;
  (* ../constants *)
  EMPTY_SIGNATURE : Bytes;
  (* the body of the block that getEmptyBlock returns *)
  emptyBody : BeaconBlockBody;
  (* which writes the storage backend rejects *)
  db_rejects : DbWrite -> bool;
  (* db.state.getLatest *)
  db_state_getLatest : Db -> Outcome (option BeaconState);
  (* ./genesis/genesis *)
  initializeBeaconStateFromEth1 :
    IBeaconConfig -> Bytes -> N -> list Deposit -> BeaconState;
  isValidGenesisState : IBeaconConfig -> BeaconState -> bool;
  (* @chainsafe/lodestar-beacon-state-transition *)
  computeForkDigest : IBeaconConfig -> Version -> Root -> ForkDigest;
  (* @chainsafe/ssz *)
  fromHexString : string -> Bytes;
  (* tree.getSingleProof, on the tree holding the given leaves *)
  getSingleProof : list Root -> N -> list Root;
  gindexOfProperty : nat -> N;
}.

Context {FC : Type} {ghost : ILMDGHOST FC} {env : Collaborators}.

(** Modelled from the spec: [GENESIS_SLOT] of [../constants], "Genesis slot = 0". *)
Definition GENESIS_SLOT : Slot := 0.

(** Modelled from the spec: [getEmptyBlock] of [./genesis/genesis] (not among
    the sources), the empty block at the genesis slot; its roots are zeroed
    and [initializeBeaconChain] overwrites [stateRoot]. *)
Definition getEmptyBlock : BeaconBlock :=
  {| slot := GENESIS_SLOT; proposerIndex := 0;
     parentRoot := Buffer_alloc 32; stateRoot := Buffer_alloc 32;
     body := emptyBody |}.

(** Modelled from the spec: [computeEpochAtSlot], "epoch = slot / SLOTS_PER_EPOCH". *)
Definition computeEpochAtSlot (cfg : IBeaconConfig) (s : Slot) : Epoch :=
  s / SLOTS_PER_EPOCH cfg.

(** Modelled from the spec: [eth1.processPastDeposits(from?, to_block_number)],
    the deposit datas of the blocks in the range, oldest first; an
    [undefined] lower end ([None]) leaves the range open below. *)
Definition processPastDeposits (from : option N) (to : N) (e : Eth1Notifier)
  : list DepositData :=
  (List.filter
     (λ p, (match from with Some f => f <=? p.1 | None => true end) && (p.1 <=? to))
     (depositLog e)).*2.

(** [eth1.on("block", l)] *)
Definition eth1_on (l : Listener) (e : Eth1Notifier) : Eth1Notifier :=
  {| depositLog := depositLog e; blockListeners := blockListeners e ++ [l] |}.

(** [EventEmitter.removeListener]: removes the most recently added instance. *)
Fixpoint remove_last (l : Listener) (ls : list Listener) : list Listener :=
  match ls with
  | [] => []
  | x :: ls' =>
      if bool_decide (x = l) && negb (bool_decide (l ∈ ls')) then ls'
      else x :: remove_last l ls'
  end.

Definition eth1_removeListener (l : Listener) (e : Eth1Notifier) : Eth1Notifier :=
  {| depositLog := depositLog e; blockListeners := remove_last l (blockListeners e) |}.

(** ** The coordinator object *)

Record BeaconChain := {
  db : Db;
  forkChoice : FC;
  eth1 : Eth1Notifier;
  (* LocalClock, by its genesis-time anchor, once created *)
  clock : option N;
  _currentForkDigest : option ForkDigest;
  eth1Listener : option Listener;
  (* lines written to logger, oldest first *)
  logger : list LogMsg;
}.

Definition with_db (d : Db) (c : BeaconChain) : BeaconChain :=
  {| db := d; forkChoice := forkChoice c; eth1 := eth1 c; clock := clock c;
     _currentForkDigest := _currentForkDigest c; eth1Listener := eth1Listener c;
     logger := logger c |}.

Definition with_forkChoice (f : FC) (c : BeaconChain) : BeaconChain :=
  {| db := db c; forkChoice := f; eth1 := eth1 c; clock := clock c;
     _currentForkDigest := _currentForkDigest c; eth1Listener := eth1Listener c;
     logger := logger c |}.

Definition with_eth1 (e : Eth1Notifier) (c : BeaconChain) : BeaconChain :=
  {| db := db c; forkChoice := forkChoice c; eth1 := e; clock := clock c;
     _currentForkDigest := _currentForkDigest c; eth1Listener := eth1Listener c;
     logger := logger c |}.

Definition with_clock (t : N) (c : BeaconChain) : BeaconChain :=
  {| db := db c; forkChoice := forkChoice c; eth1 := eth1 c; clock := Some t;
     _currentForkDigest := _currentForkDigest c; eth1Listener := eth1Listener c;
     logger := logger c |}.

Definition with_currentForkDigest (d : ForkDigest) (c : BeaconChain) : BeaconChain :=
  {| db := db c; forkChoice := forkChoice c; eth1 := eth1 c; clock := clock c;
     _currentForkDigest := Some d; eth1Listener := eth1Listener c;
     logger := logger c |}.

Definition with_eth1Listener (l : Listener) (c : BeaconChain) : BeaconChain :=
  {| db := db c; forkChoice := forkChoice c; eth1 := eth1 c; clock := clock c;
     _currentForkDigest := _currentForkDigest c; eth1Listener := Some l;
     logger := logger c |}.

Definition logger_info (m : LogMsg) (c : BeaconChain) : BeaconChain :=
  {| db := db c; forkChoice := forkChoice c; eth1 := eth1 c; clock := clock c;
     _currentForkDigest := _currentForkDigest c; eth1Listener := eth1Listener c;
     logger := logger c ++ [m] |}.

(** [getHeadState] (lines 79-81) *)
Definition getHeadState (c : BeaconChain) : option BeaconState :=
  state_get (headStateRoot (forkChoice c)) (db c).

(** [getHeadBlock] (lines 83-85) *)
Definition getHeadBlock (c : BeaconChain) : option SignedBeaconBlock :=
  block_get (head (forkChoice c)) (db c).

(** The getter [currentForkDigest] (lines 111-113); [None] is the field
    before [start] has assigned it. *)
Definition currentForkDigest (c : BeaconChain) : option ForkDigest :=
  _currentForkDigest c.

(** The block that [initializeBeaconChain] builds (lines 127-129). *)
Definition genesisBlockOf (genesisState : BeaconState) : BeaconBlock :=
  let genesisBlock := getEmptyBlock in
  let stateRoot' := BeaconState_hashTreeRoot config genesisState in
  {| slot := slot genesisBlock; proposerIndex := proposerIndex genesisBlock;
     parentRoot := parentRoot genesisBlock; stateRoot := stateRoot';
     body := body genesisBlock |}.

(** The six writes of lines 141-148, in the order of the array literal. *)
Definition genesisWrites (genesisBlock : BeaconBlock) (blockRoot stateRoot' : Root)
    (genesisState : BeaconState) (depositDataRootList : list Root)
  : list DbPromise :=
  [ db_write db_rejects StoreChainHead
      (commit_storeChainHead config
         {| message := genesisBlock; signature := EMPTY_SIGNATURE |} genesisState);
    db_write db_rejects SetJustifiedBlockRoot (commit_setJustifiedBlockRoot blockRoot);
    db_write db_rejects SetFinalizedBlockRoot (commit_setFinalizedBlockRoot blockRoot);
    db_write db_rejects SetJustifiedStateRoot (commit_setJustifiedStateRoot stateRoot');
    db_write db_rejects SetFinalizedStateRoot (commit_setFinalizedStateRoot stateRoot');
    db_write db_rejects SetDepositDataRootList
      (commit_depositDataRootList_set (eth1DepositIndex genesisState)
         depositDataRootList) ].

(** [initializeBeaconChain] (lines 123-162) *)
Definition initializeBeaconChain (genesisState : BeaconState)
    (depositDataRootList : list Root) (c : BeaconChain)
  : Completion unit * BeaconChain :=
  let genesisBlock := genesisBlockOf genesisState in
  let stateRoot' := BeaconState_hashTreeRoot config genesisState in
  let blockRoot := BeaconBlock_hashTreeRoot config genesisBlock in
  let c := logger_info (LogInitializing stateRoot' blockRoot) c in
  let storedGenesisBlock := getBlockBySlot GENESIS_SLOT (db c) in
  if match storedGenesisBlock with
     | Some b => negb (Root_equals (stateRoot genesisBlock) (stateRoot (message b)))
     | None => false
     end
  then (Rejected GenesisMismatch, c)
  else
    let '(r, d) :=
      Promise_all
        (genesisWrites genesisBlock blockRoot stateRoot' genesisState depositDataRootList)
        (db c) in
    let c := with_db d c in
    match r with
    | Rejected e => (Rejected e, c)
    | Fulfilled _ =>
        let justifiedFinalizedCheckpoint :=
          {| cp_root := blockRoot;
             cp_epoch := computeEpochAtSlot config (slot genesisBlock) |} in
        let c :=
          with_forkChoice
            (addBlock
               {| bs_slot := slot genesisBlock;
                  blockRootBuf := blockRoot;
                  stateRootBuf := stateRoot';
                  parentRootBuf := Buffer_alloc 32;
                  justifiedCheckpoint := justifiedFinalizedCheckpoint;
                  finalizedCheckpoint := justifiedFinalizedCheckpoint |}
               (forkChoice c)) c in
        (Fulfilled tt, logger_info LogInitialized c)
    end.

(** [getCurrentForkDigest] (lines 164-167): the state is dereferenced as it
    comes back from [getHeadState]. *)
Definition getCurrentForkDigest (c : BeaconChain) : Completion ForkDigest :=
  match getHeadState c with
  | Some state =>
      Fulfilled
        (computeForkDigest config (currentVersion (fork state))
           (genesisValidatorsRoot state))
  | None => Rejected TypeError
  end.

(** ** Genesis bootstrap *)

(** The callback of [depositDatas.map] (lines 204-210), run over the array
    from position [index] on. [depositDataRootList] and [tree] are one
    object: each call pushes a leaf, then reads the proof of that leaf from
    the tree as it is after the push. *)
Fixpoint mapDeposits (index : nat) (depositDatas : list DepositData)
    (depositDataRootList : list Root) : list Deposit * list Root :=
  match depositDatas with
  | [] => ([], depositDataRootList)
  | data' :: rest =>
      let depositDataRootList :=
        depositDataRootList ++ [DepositData_hashTreeRoot config data'] in
      let d := {| proof := getSingleProof depositDataRootList (gindexOfProperty index);
                  data := data' |} in
      let '(ds, l) := mapDeposits (S index) rest depositDataRootList in
      (d :: ds, l)
  end.

(** [checkGenesis] up to its first [await] (lines 194-195): the fetch of
    the past deposits is issued and the handler is suspended. *)
Definition checkGenesis_begin (eth1Block : Eth1Block) (c : BeaconChain) : BeaconChain :=
  logger_info (LogChecking (hash eth1Block)) c.

(** [checkGenesis] from the answer of the fetch to its end (lines 196-219). *)
Definition checkGenesis_resume (eth1Block : Eth1Block)
    (depositDatas : list DepositData) (c : BeaconChain)
  : Completion (option BeaconState) * BeaconChain :=
  let c := logger_info (LogFoundDeposits (length depositDatas)) c in
  let '(deposits, depositDataRootList) := mapDeposits 0 depositDatas [] in
  let genesisState :=
    initializeBeaconStateFromEth1 config (fromHexString (hash eth1Block))
      (timestamp eth1Block) deposits in
  if negb (isValidGenesisState config genesisState) then
    (Fulfilled None, logger_info (LogNotValidGenesis (hash eth1Block)) c)
  else
    let c := logger_info (LogInitializingWith (hash eth1Block)) c in
    match initializeBeaconChain genesisState depositDataRootList c with
    | (Rejected e, c) => (Rejected e, c)
    | (Fulfilled _, c) =>
        (Fulfilled (Some genesisState),
         logger_info (LogGenesisReady (length (validators genesisState))) c)
    end.

(** [checkGenesis] (lines 193-220) when nothing else runs while it awaits. *)
Definition checkGenesis (eth1Block : Eth1Block) (c : BeaconChain)
  : Completion (option BeaconState) * BeaconChain :=
  let c := checkGenesis_begin eth1Block c in
  checkGenesis_resume eth1Block
    (processPastDeposits None (number eth1Block) (eth1 c)) c.

(** Where a call of [waitForState] stands. *)
Inductive WaitForState :=
| AwaitingGenesis (* suspended on the promise of line 176 *)
| Returned (state : option BeaconState).

(** [waitForState], lines 187-190: reached with the value of [state]. *)
Definition waitForState_return (state : option BeaconState) (c : BeaconChain)
  : WaitForState * BeaconChain :=
  let c :=
    match eth1Listener c with
    | Some l => with_eth1 (eth1_removeListener l (eth1 c)) c
    | None => c
    end in
  (Returned state, c).

(** [waitForState] (lines 170-191) up to its return or to the [await] of
    line 176; [None] is a [null] that [getLatest] returned. *)
Definition waitForState (c : BeaconChain) : WaitForState * BeaconChain :=
  match db_state_getLatest (db c) with
  | Returns state => waitForState_return state c
  | Throws =>
      let c := logger_info LogNotStarted c in
      let c := with_eth1Listener GenesisListener c in
      let c := with_eth1 (eth1_on GenesisListener (eth1 c)) c in
      (AwaitingGenesis, c)
  end.

(** ** The event machine

    The eth1 emitter calls its listeners and does not wait for what they
    start: [eth1Listener] calls [checkGenesis], which runs to its first
    [await] and is suspended there, so the handlers of several blocks can
    be in flight. [handlers] are the suspended ones, oldest first. The
    remainder of a handler is run as one step, and a handler whose promise
    rejects ends there (its [then] has no rejection callback). *)
Record Node := {
  chain : BeaconChain;
  wfs : WaitForState;
  handlers : list Eth1Block;
}.

Inductive Event :=
| BlockEmitted (eth1Block : Eth1Block) (* eth1 emits "block" *)
| DepositsFetched (i : nat) (* the fetch of the i-th suspended handler is answered *).

(** [this.eth1Listener] (lines 177-183), up to the suspension. *)
Definition invokeListener (eth1Block : Eth1Block) (n : Node) (l : Listener) : Node :=
  match l with
  | GenesisListener =>
      {| chain := checkGenesis_begin eth1Block (chain n); wfs := wfs n;
         handlers := handlers n ++ [eth1Block] |}
  end.

(** [emit("block", eth1Block)]: the listeners registered at that time, in order. *)
Definition emit (eth1Block : Eth1Block) (n : Node) : Node :=
  foldl (invokeListener eth1Block) n (blockListeners (eth1 (chain n))).

(** [resolve(state)] (line 180) and the continuation of [waitForState] that
    it wakes up; a promise is settled once, later calls do nothing. *)
Definition resolve (state : BeaconState) (n : Node) : Node :=
  match wfs n with
  | AwaitingGenesis =>
      let '(w, c) := waitForState_return (Some state) (chain n) in
      {| chain := c; wfs := w; handlers := handlers n |}
  | Returned _ => n
  end.

Definition fetched (i : nat) (n : Node) : Node :=
  match handlers n !! i with
  | None => n
  | Some eth1Block =>
      let '(r, c) :=
        checkGenesis_resume eth1Block
          (processPastDeposits None (number eth1Block) (eth1 (chain n))) (chain n) in
      let n := {| chain := c; wfs := wfs n; handlers := delete i (handlers n) |} in
      match r with
      | Fulfilled (Some state) => resolve state n
      | Fulfilled None | Rejected _ => n
      end
  end.

Definition step (n : Node) (ev : Event) : Node :=
  match ev with
  | BlockEmitted eth1Block => emit eth1Block n
  | DepositsFetched i => fetched i n
  end.

Definition run (evs : list Event) (n : Node) : Node := foldl step n evs.

(** Blocks handled one after the other: the handler of a block has ended
    when the next block is emitted. *)
Definition sequential (blocks : list Eth1Block) : list Event :=
  blocks ≫= λ eth1Block, [BlockEmitted eth1Block; DepositsFetched 0].

(** The state that [checkGenesis] builds for a block (lines 195-211). *)
Definition genesisStateFor (eth1Block : Eth1Block) (e : Eth1Notifier) : BeaconState :=
  initializeBeaconStateFromEth1 config (fromHexString (hash eth1Block))
    (timestamp eth1Block)
    (mapDeposits 0 (processPastDeposits None (number eth1Block) e) []).1.

(** ** [start] *)

(** [start] (lines 92-95), up to the return or suspension of [waitForState]. *)
Definition start (c : BeaconChain) : WaitForState * BeaconChain :=
  waitForState (logger_info LogStartingChain c).

(** [start] from the value of [waitForState] on (lines 96-102). A [null]
    state fails at [state.genesisTime]. The awaited [clock.start()] and
    [blockProcessor.start()] leave the coordinator's fields alone. *)
Definition start_resume (state : option BeaconState) (c : BeaconChain)
  : Completion unit * BeaconChain :=
  match state with
  | None => (Rejected TypeError, c)
  | Some s =>
      let c := with_forkChoice (fc_start (genesisTime s) (forkChoice c)) c in
      let c := logger_info LogChainStarted c in
      let c := with_clock (genesisTime s) c in
      match getCurrentForkDigest c with
      | Fulfilled d => (Fulfilled tt, with_currentForkDigest d c)
      | Rejected e => (Rejected e, c)
      end
  end.

(** [BlockProcessor] and [AttestationProcessor] are built over the
    coordinator's [db] and [forkChoice] (lines 74-76) and change them when
    they process what [receiveBlock] and [receiveAttestation] forward
    (lines 115-121); [f] is such a change. The field [_currentForkDigest]
    is private to the coordinator. *)
Definition processorEffect (f : Db -> FC -> Db * FC) (c : BeaconChain) : BeaconChain :=
  let '(d, fc) := f (db c) (forkChoice c) in
  with_forkChoice fc (with_db d c).

(** ** The genesis bootstrapper in the words of the specification

    Steps 1-3: the deposit datas with block number at most [E.number]; the
    list of their hash-tree-roots; for the leaf at index [i], a single-leaf
    proof at the generalised index of leaf [i], in the list of the leaves up
    to it; the state that [initialize_beacon_state_from_eth1] makes of them. *)
Definition spec_depositDatas (E : Eth1Block) (e : Eth1Notifier) : list DepositData :=
  (List.filter (λ p, p.1 <=? number E) (depositLog e)).*2.

Definition spec_depositRoots (datas : list DepositData) : list Root :=
  DepositData_hashTreeRoot config <$> datas.

Definition spec_deposits (datas : list DepositData) : list Deposit :=
  imap (λ i d, {| proof := getSingleProof (take (S i) (spec_depositRoots datas))
                             (gindexOfProperty i);
                  data := d |}) datas.

Definition spec_genesisState (E : Eth1Block) (e : Eth1Notifier) : BeaconState :=
  initializeBeaconStateFromEth1 config (fromHexString (hash E)) (timestamp E)
    (spec_deposits (spec_depositDatas E e)).

(** ** What a write of [initializeBeaconChain] leaves in storage

    For the genesis state and deposit-root list of a call: the records a
    write commits, and what it means that a write left its records alone. *)
Definition committed (genesisState : BeaconState) (depositDataRootList : list Root)
    (w : DbWrite) (d : Db) : Prop :=
  let genesisBlock := genesisBlockOf genesisState in
  let stateRoot' := BeaconState_hashTreeRoot config genesisState in
  let blockRoot := BeaconBlock_hashTreeRoot config genesisBlock in
  match w with
  | StoreChainHead =>
      db_block d !! blockRoot
        = Some {| message := genesisBlock; signature := EMPTY_SIGNATURE |}
      ∧ db_state d !! stateRoot' = Some genesisState
      ∧ chain_head d = Some blockRoot
  | SetJustifiedBlockRoot => justifiedBlockRoot d = Some blockRoot
  | SetFinalizedBlockRoot => finalizedBlockRoot d = Some blockRoot
  | SetJustifiedStateRoot => justifiedStateRoot d = Some stateRoot'
  | SetFinalizedStateRoot => finalizedStateRoot d = Some stateRoot'
  | SetDepositDataRootList =>
      db_depositDataRootList d !! eth1DepositIndex genesisState
        = Some depositDataRootList
  end.

Definition untouched (w : DbWrite) (d d' : Db) : Prop :=
  match w with
  | StoreChainHead =>
      db_block d' = db_block d ∧ db_state d' = db_state d
      ∧ chain_head d' = chain_head d
  | SetJustifiedBlockRoot => justifiedBlockRoot d' = justifiedBlockRoot d
  | SetFinalizedBlockRoot => finalizedBlockRoot d' = finalizedBlockRoot d
  | SetJustifiedStateRoot => justifiedStateRoot d' = justifiedStateRoot d
  | SetFinalizedStateRoot => finalizedStateRoot d' = finalizedStateRoot d
  | SetDepositDataRootList => db_depositDataRootList d' = db_depositDataRootList d
  end.

(** No block stored at the genesis slot contradicts the state (the guard of
    lines 137-138 is false). *)
Definition noGenesisMismatch (genesisState : BeaconState) (d : Db) : Prop :=
  ∀ b, getBlockBySlot GENESIS_SLOT d = Some b →
       stateRoot (message b) = BeaconState_hashTreeRoot config genesisState.

(** The node that [initializeBeaconChain] hands to [forkChoice.addBlock]. *)
Definition genesisNode (genesisState : BeaconState) : BlockSummary :=
  let blockRoot := BeaconBlock_hashTreeRoot config (genesisBlockOf genesisState) in
  let cp := {| cp_epoch := computeEpochAtSlot config GENESIS_SLOT;
               cp_root := blockRoot |} in
  {| bs_slot := 0;
     blockRootBuf := blockRoot;
     stateRootBuf := BeaconState_hashTreeRoot config genesisState;
     parentRootBuf := replicate 32 x00;
     justifiedCheckpoint := cp;
     finalizedCheckpoint := cp |}.

End Chain.

(** ** A small instance, to evaluate the coordinator on concrete inputs *)
Module Sample.

Definition byteN (n : N) : byte := default x00 (Byte.of_N (n mod 256)).

(** A fork choice that keeps the summaries it was given, newest first, and
    takes the newest as head. *)
#[global] Instance recordingForkChoice : ILMDGHOST (list BlockSummary) := {|
  fc_start _ f := f;
  addBlock b f := b :: f;
  head f := match f with b :: _ => blockRootBuf b | [] => Buffer_alloc 32 end;
  headStateRoot f := match f with b :: _ => stateRootBuf b | [] => Buffer_alloc 32 end;
|}.

(** Deposit datas are their amounts; block bodies are empty. *)
Definition cfg : @IBeaconConfig unit N := {|
  SLOTS_PER_EPOCH := 32;
  BeaconState_hashTreeRoot s :=
    [x53; byteN (genesisTime s); byteN (N.of_nat (length (validators s)))]
      ++ currentVersion (fork s);
  BeaconBlock_hashTreeRoot b := [x42; byteN (slot b)] ++ stateRoot b;
  DepositData_hashTreeRoot d := [x44; byteN d];
|}.

Definition version0 : Version := [x00; x00; x00; x00].
Definition version1 : Version := [x01; x00; x00; x00].

(** A state is a valid genesis state once it has two validators. *)
Definition collaborators (rejects : DbWrite -> bool)
    (getLatest : @Db unit -> Outcome (option BeaconState))
  : @Collaborators unit N := {|
  config := cfg;
  EMPTY_SIGNATURE := replicate 96 x00;
  emptyBody := tt;
  db_rejects := rejects;
  db_state_getLatest := getLatest;
  initializeBeaconStateFromEth1 _ h t deposits :=
    {| genesisTime := t; genesisValidatorsRoot := h;
       fork := {| previousVersion := version0; currentVersion := version0;
                  fork_epoch := 0 |};
       validators :=
         (λ d, {| pubkey := [byteN (data d)]; effectiveBalance := data d |}) <$> deposits;
       eth1DepositIndex := N.of_nat (length deposits) |};
  isValidGenesisState _ s := bool_decide (2 ≤ length (validators s))%nat;
  computeForkDigest _ v r := take 4 (v ++ r);
  fromHexString s := String.list_byte_of_string s;
  getSingleProof leaves g := [byteN g] :: leaves;
  gindexOfProperty i := N.of_nat i;
|}.

Definition noRejects : DbWrite -> bool := λ _, false.
Definition rejectsOnly (w : DbWrite) : DbWrite -> bool := λ w', bool_decide (w' = w).
Definition noLatest : @Db unit -> Outcome (option BeaconState) := λ _, Throws.

Definition follower : @Eth1Notifier N :=
  {| depositLog := [(1, 5); (2, 6); (3, 7)]; blockListeners := [] |}.

Definition chain0 : @BeaconChain unit N (list BlockSummary) :=
  {| db := Db_empty; forkChoice := []; eth1 := follower; clock := None;
     _currentForkDigest := None; eth1Listener := None; logger := [] |}.

Definition block1 : Eth1Block := {| hash := "aa"; number := 1; timestamp := 10 |}.
Definition block2 : Eth1Block := {| hash := "bb"; number := 2; timestamp := 20 |}.
Definition block3 : Eth1Block := {| hash := "cc"; number := 3; timestamp := 30 |}.

Definition state2 : BeaconState :=
  genesisStateFor (env := collaborators noRejects noLatest) block2 follower.
Definition state3 : BeaconState :=
  genesisStateFor (env := collaborators noRejects noLatest) block3 follower.

(** A state after a fork: as [state2], under the next fork version. *)
Definition forked : BeaconState :=
  {| genesisTime := genesisTime state2;
     genesisValidatorsRoot := genesisValidatorsRoot state2;
     fork := {| previousVersion := version0; currentVersion := version1;
                fork_epoch := 1 |};
     validators := validators state2;
     eth1DepositIndex := eth1DepositIndex state2 |}.

(** The block processor stores the post-state of a block at slot 32 and
    adds the block to the fork choice. *)
Definition applyForkBlock (d : @Db unit) (f : list BlockSummary)
  : @Db unit * list BlockSummary :=
  let stateRoot' := BeaconState_hashTreeRoot cfg forked in
  let parent := head f in
  let blk := {| slot := 32; proposerIndex := 0; parentRoot := parent;
                stateRoot := stateRoot'; body := tt |} in
  let blockRoot := BeaconBlock_hashTreeRoot cfg blk in
  let d := commit_storeChainHead cfg
             {| message := blk; signature := replicate 96 x01 |} forked d in
  let cp := {| cp_epoch := 0; cp_root := parent |} in
  (d, addBlock {| bs_slot := 32; blockRootBuf := blockRoot;
                  stateRootBuf := stateRoot'; parentRootBuf := parent;
                  justifiedCheckpoint := cp; finalizedCheckpoint := cp |} f).

(** Collaborators over a backend that accepts every write, and over one
    that rejects the write of the finalized state root. *)
Definition sound : @Collaborators unit N := collaborators noRejects noLatest.
Definition faulty : @Collaborators unit N :=
  collaborators (rejectsOnly SetFinalizedStateRoot) noLatest.

(** The coordinator of [chain0] once [waitForState] has subscribed. *)
Definition waiting : @Node unit N (list BlockSummary) :=
  {| chain := (waitForState (env := sound) chain0).2;
     wfs := AwaitingGenesis; handlers := [] |}.

(** ... once genesis has been accepted from [block2] ... *)
Definition bootstrapped : @BeaconChain unit N (list BlockSummary) :=
  chain (run (env := sound) (sequential [block1; block2]) waiting).

(** ... once [start] has completed ... *)
Definition started : @BeaconChain unit N (list BlockSummary) :=
  (start_resume (env := sound) (Some state2) bootstrapped).2.

(** ... and once the head has moved to the block after the fork. *)
Definition afterFork : @BeaconChain unit N (list BlockSummary) :=
  processorEffect applyForkBlock started.

(** A coordinator whose storage holds, at slot 0, the genesis block of
    [state3]. *)
Definition chainOfState3 : @BeaconChain unit N (list BlockSummary) :=
  let blk := genesisBlockOf (env := sound) state3 in
  let r := BeaconBlock_hashTreeRoot cfg blk in
  {| db := {| db_block := {[ r := {| message := blk; signature := replicate 96 x00 |} ]};
              db_state := ∅; db_block_by_slot := {[ 0 := r ]}; chain_head := None;
              justifiedBlockRoot := None; finalizedBlockRoot := None;
              justifiedStateRoot := None; finalizedStateRoot := None;
              db_depositDataRootList := ∅ |};
     forkChoice := []; eth1 := follower; clock := None;
     _currentForkDigest := None; eth1Listener := None; logger := [] |}.

End Sample.

(** ** [stop] *)

(** The collaborators that [stop] stops. *)
Inductive StopCall :=
| ForkChoiceStop
| ClockStop
| BlockProcessorStop.

Section Stop.

Context {BeaconBlockBody DepositData FC : Type}.

(** [stop] (lines 105-109), with the calls it makes, in order. [this.clock]
    is assigned by [start] only (line 99); before that, [this.clock.stop()]
    is a property access on [undefined], after [forkChoice.stop()] has been
    awaited. The three [stop] methods are taken to fulfil. *)
Definition stop (c : @BeaconChain BeaconBlockBody DepositData FC)
  : Completion unit * list StopCall :=
  match clock c with
  | None => (Rejected TypeError, [ForkChoiceStop])
  | Some _ => (Fulfilled tt, [ForkChoiceStop; ClockStop; BlockProcessorStop])
  end.

End Stop.

Section AllCommitted.

Context {BeaconBlockBody DepositData : Type}.
Context {env : @Collaborators BeaconBlockBody DepositData}.

(** Storage once the six writes of [initializeBeaconChain] (lines 141-148)
    have all committed. *)
Definition allCommitted (genesisState : BeaconState)
    (depositDataRootList : list Root) (d : @Db BeaconBlockBody) : @Db BeaconBlockBody :=
  let genesisBlock := genesisBlockOf genesisState in
  let stateRoot' := BeaconState_hashTreeRoot config genesisState in
  let blockRoot := BeaconBlock_hashTreeRoot config genesisBlock in
  commit_depositDataRootList_set (eth1DepositIndex genesisState) depositDataRootList
    (commit_setFinalizedStateRoot stateRoot'
       (commit_setJustifiedStateRoot stateRoot'
          (commit_setFinalizedBlockRoot blockRoot
             (commit_setJustifiedBlockRoot blockRoot
                (commit_storeChainHead config
                   {| message := genesisBlock; signature := EMPTY_SIGNATURE |}
                   genesisState d))))).

End AllCommitted.

(** ** More concrete coordinators *)
Module Scenario.

Import Sample.

(** Storage whose [getLatest] returns [v]. *)
Definition latestIs (v : option BeaconState)
  : @Db unit -> Outcome (option BeaconState) := λ _, Returns v.

Definition restarting : @Collaborators unit N :=
  collaborators noRejects (latestIs (Some state2)).

Definition nullLatest : @Collaborators unit N :=
  collaborators noRejects (latestIs None).

(** A coordinator constructed anew over the storage that the bootstrap
    left: the constructor makes a new fork choice (line 71). *)
Definition restarted : @BeaconChain unit N (list BlockSummary) :=
  {| db := db bootstrapped; forkChoice := []; eth1 := follower; clock := None;
     _currentForkDigest := None; eth1Listener := None; logger := [] |}.

(** Waiting for genesis over storage that holds the genesis block of
    [state3], with the handler of [block2] suspended. *)
Definition mismatching : @Node unit N (list BlockSummary) :=
  {| chain := chainOfState3; wfs := AwaitingGenesis; handlers := [block2] |}.

(** Waiting for genesis over empty storage, with the handler of [block2]
    suspended. *)
Definition suspended : @Node unit N (list BlockSummary) :=
  {| chain := chain (waiting); wfs := AwaitingGenesis; handlers := [block2] |}.

(** [block2] and [block3] were emitted, the handler of [block3] has ended
    and that of [block2] has not. *)
Definition overlapped : @Node unit N (list BlockSummary) :=
  run (env := sound)
    [BlockEmitted block2; BlockEmitted block3; DepositsFetched 1] waiting.

End Scenario.

(** * Properties *)
Section Properties.

Context {BeaconBlockBody DepositData : Type} {FC : Type} {ghost : ILMDGHOST FC}.
Context {env : @Collaborators BeaconBlockBody DepositData}.

Implicit Types (c : @BeaconChain BeaconBlockBody DepositData FC).
Implicit Types (d : @Db BeaconBlockBody).
Implicit Types (genesisState : BeaconState) (depositDataRootList : list Root).

(** ** [initializeBeaconChain] *)

Lemma genesisBlockOf_fields genesisState :
  genesisBlockOf genesisState
  = {| slot := 0; proposerIndex := 0; parentRoot := replicate 32 x00;
       stateRoot := BeaconState_hashTreeRoot config genesisState;
       body := emptyBody |}.
Proof. reflexivity. Qed.

Lemma computeEpochAtSlot_genesis (cfg : @IBeaconConfig BeaconBlockBody DepositData) :
  computeEpochAtSlot cfg GENESIS_SLOT = 0.
Proof. unfold computeEpochAtSlot, GENESIS_SLOT. by destruct (SLOTS_PER_EPOCH cfg). Qed.

(** The guard of lines 137-138, as a proposition. *)
Lemma mismatch_guard genesisState d :
  match getBlockBySlot GENESIS_SLOT d with
  | Some b => negb (Root_equals (stateRoot (genesisBlockOf genesisState))
                      (stateRoot (message b)))
  | None => false
  end = false
  ↔ noGenesisMismatch genesisState d.
Proof.
  unfold noGenesisMismatch, Root_equals. cbn [genesisBlockOf stateRoot].
  destruct (getBlockBySlot GENESIS_SLOT d) as [b|]; [|naive_solver].
  rewrite negb_false_iff, bool_decide_eq_true. naive_solver.
Qed.

(** The state of storage once the six writes have run. *)
Lemma Promise_all_genesisWrites genesisBlock blockRoot stateRoot' genesisState
    depositDataRootList d :
  let step w commit d := if db_rejects w then d else commit d in
  (Promise_all
     (genesisWrites genesisBlock blockRoot stateRoot' genesisState depositDataRootList)
     d).2
  = step SetDepositDataRootList
      (commit_depositDataRootList_set (eth1DepositIndex genesisState) depositDataRootList)
      (step SetFinalizedStateRoot (commit_setFinalizedStateRoot stateRoot')
         (step SetJustifiedStateRoot (commit_setJustifiedStateRoot stateRoot')
            (step SetFinalizedBlockRoot (commit_setFinalizedBlockRoot blockRoot)
               (step SetJustifiedBlockRoot (commit_setJustifiedBlockRoot blockRoot)
                  (step StoreChainHead
                     (commit_storeChainHead config
                        {| message := genesisBlock; signature := EMPTY_SIGNATURE |}
                        genesisState) d))))).
Proof.
  unfold genesisWrites, db_write. cbn [Promise_all].
  repeat (destruct (db_rejects _)); reflexivity.
Qed.

(** [Promise.all] fulfils exactly when no write rejects. *)
Lemma Promise_all_genesisWrites_result genesisBlock blockRoot stateRoot' genesisState
    depositDataRootList d :
  (Promise_all
     (genesisWrites genesisBlock blockRoot stateRoot' genesisState depositDataRootList)
     d).1 = Fulfilled tt
  ↔ ∀ w, db_rejects w = false.
Proof.
  unfold genesisWrites, db_write. cbn [Promise_all]. split.
  - destruct (db_rejects StoreChainHead) eqn:H1,
      (db_rejects SetJustifiedBlockRoot) eqn:H2,
      (db_rejects SetFinalizedBlockRoot) eqn:H3,
      (db_rejects SetJustifiedStateRoot) eqn:H4,
      (db_rejects SetFinalizedStateRoot) eqn:H5,
      (db_rejects SetDepositDataRootList) eqn:H6;
      cbn [fst]; intros Hr; try discriminate Hr.
    intros []; assumption.
  - intros Hno. rewrite !Hno. reflexivity.
Qed.

(** [initializeBeaconChain], by its three exits. *)
Lemma initializeBeaconChain_exits genesisState depositDataRootList c :
  let genesisBlock := genesisBlockOf genesisState in
  let stateRoot' := BeaconState_hashTreeRoot config genesisState in
  let blockRoot := BeaconBlock_hashTreeRoot config genesisBlock in
  let c1 := logger_info (LogInitializing stateRoot' blockRoot) c in
  let written :=
    Promise_all
      (genesisWrites genesisBlock blockRoot stateRoot' genesisState depositDataRootList)
      (db c) in
  initializeBeaconChain genesisState depositDataRootList c
  = if match getBlockBySlot GENESIS_SLOT (db c) with
       | Some b => negb (Root_equals (stateRoot genesisBlock) (stateRoot (message b)))
       | None => false
       end
    then (Rejected GenesisMismatch, c1)
    else match written.1 with
         | Rejected e => (Rejected e, with_db written.2 c1)
         | Fulfilled _ =>
             (Fulfilled tt,
              logger_info LogInitialized
                (with_forkChoice (addBlock (genesisNode genesisState) (forkChoice c))
                   (with_db written.2 c1)))
         end.
Proof.
  intros. unfold initializeBeaconChain.
  change (db (logger_info _ c)) with (db c).
  destruct (match getBlockBySlot GENESIS_SLOT (db c) with Some _ => _ | None => _ end);
    [reflexivity|].
  fold genesisBlock stateRoot' blockRoot written.
  destruct written as [[[]|e] d']; reflexivity.
Qed.

(** C1. A call of [initializeBeaconChain] that succeeds on a genesis state
    [S] has stored, as chain head, the empty block ([getEmptyBlock]: slot 0,
    signed with the empty signature) with [state_root = hash_tree_root(S)],
    and has added to the fork choice the node whose parent root is the
    all-zero 32-byte root and whose justified and finalized checkpoints are
    both [{epoch: epoch of the genesis slot, root: hash_tree_root(genesis
    block)}]; that epoch is 0. *)
Theorem initializeBeaconChain_genesis genesisState depositDataRootList c c' :
  initializeBeaconChain genesisState depositDataRootList c = (Fulfilled tt, c') →
  let genesisBlock :=
    {| slot := 0; proposerIndex := proposerIndex getEmptyBlock;
       parentRoot := parentRoot getEmptyBlock;
       stateRoot := BeaconState_hashTreeRoot config genesisState;
       body := body getEmptyBlock |} in
  let blockRoot := BeaconBlock_hashTreeRoot config genesisBlock in
  let checkpoint :=
    {| cp_epoch := computeEpochAtSlot config GENESIS_SLOT; cp_root := blockRoot |} in
  chain_head (db c') = Some blockRoot
  ∧ block_get blockRoot (db c')
    = Some {| message := genesisBlock; signature := EMPTY_SIGNATURE |}
  ∧ forkChoice c'
    = addBlock
        {| bs_slot := 0; blockRootBuf := blockRoot;
           stateRootBuf := BeaconState_hashTreeRoot config genesisState;
           parentRootBuf := replicate 32 x00;
           justifiedCheckpoint := checkpoint;
           finalizedCheckpoint := checkpoint |}
        (forkChoice c)
  ∧ cp_epoch checkpoint = 0.
Proof.
  intros Hcall genesisBlock blockRoot checkpoint.
  rewrite initializeBeaconChain_exits in Hcall.
  destruct (match getBlockBySlot GENESIS_SLOT (db c) with Some _ => _ | None => _ end);
    [discriminate|].
  rewrite Promise_all_genesisWrites in Hcall.
  destruct (Promise_all _ (db c)).1 as [[]|e] eqn:Hall; [|discriminate].
  pose proof (proj1 (Promise_all_genesisWrites_result _ _ _ _ _ _) Hall) as Hno.
  cbn zeta in Hcall. rewrite !Hno in Hcall. injection Hcall as <-.
  split_and!; [reflexivity | | reflexivity | apply computeEpochAtSlot_genesis].
  unfold block_get. cbn. apply lookup_insert_eq.
Qed.

(** C2. With a block stored at slot 0 whose state root differs from that of
    the genesis state passed in, [initializeBeaconChain] fails with the
    different-configuration error and writes nothing: storage, in every
    namespace, and the fork choice are as before the call. *)
Theorem initializeBeaconChain_mismatch genesisState depositDataRootList c b :
  getBlockBySlot GENESIS_SLOT (db c) = Some b →
  stateRoot (message b) ≠ BeaconState_hashTreeRoot config genesisState →
  ∃ c', initializeBeaconChain genesisState depositDataRootList c
        = (Rejected GenesisMismatch, c')
        ∧ db c' = db c
        ∧ forkChoice c' = forkChoice c
        ∧ eth1 c' = eth1 c.
Proof.
  intros Hb Hne. rewrite initializeBeaconChain_exits, Hb.
  unfold Root_equals. cbn [genesisBlockOf stateRoot].
  rewrite bool_decide_eq_false_2 by congruence.
  eexists. split; [reflexivity|]. by split_and!.
Qed.

(** C3, as amended. With no mismatching genesis block stored,
    [initializeBeaconChain] issues its six writes together and awaits them
    all; each write commits its records or rejects by itself. If none
    rejects, all records are committed and only then is the genesis node
    added to the fork choice. If one rejects, the call fails and the fork
    choice is unchanged, the rejected write has left its records alone, and
    every write that did not reject has committed. *)
Theorem initializeBeaconChain_writes genesisState depositDataRootList c :
  noGenesisMismatch genesisState (db c) →
  let r := (initializeBeaconChain genesisState depositDataRootList c).1 in
  let c' := (initializeBeaconChain genesisState depositDataRootList c).2 in
  (∀ w, db_rejects w = false → committed genesisState depositDataRootList w (db c'))
  ∧ (∀ w, db_rejects w = true → untouched w (db c) (db c'))
  ∧ ((∀ w, db_rejects w = false) →
     r = Fulfilled tt
     ∧ forkChoice c' = addBlock (genesisNode genesisState) (forkChoice c))
  ∧ (∀ w, db_rejects w = true →
     (∃ e, r = Rejected e) ∧ forkChoice c' = forkChoice c).
Proof.
  intros Hok%mismatch_guard r c'. subst r c'.
  rewrite initializeBeaconChain_exits, Hok.
  pose proof (Promise_all_genesisWrites (genesisBlockOf genesisState)
                (BeaconBlock_hashTreeRoot config (genesisBlockOf genesisState))
                (BeaconState_hashTreeRoot config genesisState)
                genesisState depositDataRootList (db c)) as Hdb.
  pose proof (Promise_all_genesisWrites_result (genesisBlockOf genesisState)
                (BeaconBlock_hashTreeRoot config (genesisBlockOf genesisState))
                (BeaconState_hashTreeRoot config genesisState)
                genesisState depositDataRootList (db c)) as Hres.
  destruct (Promise_all _ (db c)) as [r d'].
  cbn [fst snd] in Hdb, Hres |- *. cbn zeta in Hdb.
  assert (db (match r with
              | Rejected e =>
                  (Rejected e,
                   with_db d' (logger_info
                     (LogInitializing (BeaconState_hashTreeRoot config genesisState)
                        (BeaconBlock_hashTreeRoot config (genesisBlockOf genesisState))) c))
              | Fulfilled _ =>
                  (Fulfilled tt,
                   logger_info LogInitialized
                     (with_forkChoice (addBlock (genesisNode genesisState) (forkChoice c))
                        (with_db d' (logger_info
                           (LogInitializing (BeaconState_hashTreeRoot config genesisState)
                              (BeaconBlock_hashTreeRoot config (genesisBlockOf genesisState))) c))))
              end).2 = d') as ->.
  { destruct r; reflexivity. }
  split_and!.
  - intros w Hw. subst d'.
    destruct (db_rejects StoreChainHead) eqn:H1,
      (db_rejects SetJustifiedBlockRoot) eqn:H2,
      (db_rejects SetFinalizedBlockRoot) eqn:H3,
      (db_rejects SetJustifiedStateRoot) eqn:H4,
      (db_rejects SetFinalizedStateRoot) eqn:H5,
      (db_rejects SetDepositDataRootList) eqn:H6;
      destruct w; try congruence; cbn;
      rewrite ?lookup_insert_eq; by split_and?.
  - intros w Hw. subst d'.
    destruct (db_rejects StoreChainHead) eqn:H1,
      (db_rejects SetJustifiedBlockRoot) eqn:H2,
      (db_rejects SetFinalizedBlockRoot) eqn:H3,
      (db_rejects SetJustifiedStateRoot) eqn:H4,
      (db_rejects SetFinalizedStateRoot) eqn:H5,
      (db_rejects SetDepositDataRootList) eqn:H6;
      destruct w; try congruence; cbn; by split_and?.
  - intros Hno. by rewrite (proj2 Hres Hno).
  - intros w Hw. destruct r as [[]|e]; [|by eauto].
    rewrite (proj1 Hres eq_refl w) in Hw. discriminate.
Qed.

(** What [initializeBeaconChain] never touches. *)
Lemma initializeBeaconChain_frame genesisState depositDataRootList c :
  let c' := (initializeBeaconChain genesisState depositDataRootList c).2 in
  eth1 c' = eth1 c ∧ eth1Listener c' = eth1Listener c
  ∧ _currentForkDigest c' = _currentForkDigest c.
Proof.
  cbn zeta. rewrite initializeBeaconChain_exits.
  destruct (match getBlockBySlot GENESIS_SLOT (db c) with Some _ => _ | None => _ end);
    [done|].
  by destruct (Promise_all _ (db c)).1.
Qed.

(** ** [checkGenesis] *)

Lemma processPastDeposits_upTo (E : Eth1Block) (e : @Eth1Notifier DepositData) :
  processPastDeposits None (number E) e = spec_depositDatas E e.
Proof. reflexivity. Qed.

Lemma spec_depositDatas_elem (E : Eth1Block) (e : @Eth1Notifier DepositData) x :
  x ∈ spec_depositDatas E e ↔ ∃ bn, (bn, x) ∈ depositLog e ∧ bn ≤ number E.
Proof.
  unfold spec_depositDatas. rewrite list_elem_of_fmap. split.
  - intros [[bn y] [-> Hin]]. exists bn.
    apply list_elem_of_In, filter_In in Hin as [Hin Hle].
    split; [by apply list_elem_of_In | by apply N.leb_le].
  - intros (bn & Hin & Hle). exists (bn, x). split; [done|].
    apply list_elem_of_In, filter_In.
    split; [by apply list_elem_of_In | by apply N.leb_le].
Qed.

(** The loop of lines 204-210 in closed form: the proof of leaf [k + i] is
    read from the tree that holds the leaves pushed so far. *)
Lemma mapDeposits_closed (k : nat) (datas : list DepositData) (acc : list Root) :
  mapDeposits k datas acc
  = (imap (λ i x, {| proof := getSingleProof (acc ++ take (S i) (spec_depositRoots datas))
                               (gindexOfProperty (k + i));
                     data := x |}) datas,
     acc ++ spec_depositRoots datas).
Proof.
  revert k acc. induction datas as [|x datas IH]; intros k acc.
  - cbn. by rewrite app_nil_r.
  - cbn [mapDeposits]. rewrite IH, imap_cons. unfold spec_depositRoots.
    rewrite fmap_cons. cbn [take]. rewrite Nat.add_0_r, <-!app_assoc. cbn [app].
    f_equal. f_equal. apply imap_ext. intros i y _. cbn.
    by rewrite <-app_assoc, Nat.add_succ_r.
Qed.

Lemma mapDeposits_spec (datas : list DepositData) :
  mapDeposits 0 datas [] = (spec_deposits datas, spec_depositRoots datas).
Proof. by rewrite mapDeposits_closed. Qed.

Lemma genesisStateFor_spec (E : Eth1Block) (e : @Eth1Notifier DepositData) :
  genesisStateFor E e = spec_genesisState E e.
Proof.
  unfold genesisStateFor, spec_genesisState.
  by rewrite processPastDeposits_upTo, mapDeposits_spec.
Qed.

(** [genesisStateFor] reads the deposit log only. *)
Lemma genesisStateFor_log (E : Eth1Block) (e e' : @Eth1Notifier DepositData) :
  depositLog e = depositLog e' → genesisStateFor E e = genesisStateFor E e'.
Proof.
  intros Hlog. unfold genesisStateFor, processPastDeposits. by rewrite Hlog.
Qed.

Lemma checkGenesis_resume_exits (E : Eth1Block) c :
  let genesisState := genesisStateFor E (eth1 c) in
  let datas := spec_depositDatas E (eth1 c) in
  let c1 := logger_info (LogFoundDeposits (length datas)) c in
  checkGenesis_resume E (processPastDeposits None (number E) (eth1 c)) c
  = if isValidGenesisState config genesisState then
      match initializeBeaconChain genesisState (spec_depositRoots datas)
              (logger_info (LogInitializingWith (hash E)) c1) with
      | (Rejected e, c2) => (Rejected e, c2)
      | (Fulfilled _, c2) =>
          (Fulfilled (Some genesisState),
           logger_info (LogGenesisReady (length (validators genesisState))) c2)
      end
    else (Fulfilled None, logger_info (LogNotValidGenesis (hash E)) c1).
Proof.
  cbn zeta. unfold checkGenesis_resume, genesisStateFor.
  rewrite processPastDeposits_upTo, mapDeposits_spec. cbn [fst].
  by destruct (isValidGenesisState config _).
Qed.

(** C4. For an eth1 block [E], [checkGenesis] fetches exactly the deposit
    datas with block number at most [E.number]; the root list it builds
    holds [hash_tree_root(deposit_data_i)] at index [i]; deposit [i] carries
    the single-leaf proof at the generalised index of leaf [i], read when
    leaf [i] is the last one pushed; and the genesis state it tests and
    initialises the chain with is [initialize_beacon_state_from_eth1(config,
    E.hash, E.timestamp, deposits_with_proofs)]. *)
Theorem checkGenesis_bootstrap (E : Eth1Block) c :
  let datas := processPastDeposits None (number E) (eth1 c) in
  let roots := DepositData_hashTreeRoot config <$> datas in
  let deposits :=
    imap (λ i x, {| proof := getSingleProof (take (S i) roots) (gindexOfProperty i);
                    data := x |}) datas in
  let genesisState :=
    initializeBeaconStateFromEth1 config (fromHexString (hash E)) (timestamp E)
      deposits in
  (∀ x, x ∈ datas ↔ ∃ bn, (bn, x) ∈ depositLog (eth1 c) ∧ bn ≤ number E)
  ∧ mapDeposits 0 datas [] = (deposits, roots)
  ∧ checkGenesis E c
    = let c1 :=
        logger_info (LogFoundDeposits (length datas))
          (logger_info (LogChecking (hash E)) c) in
      if isValidGenesisState config genesisState then
        match initializeBeaconChain genesisState roots
                (logger_info (LogInitializingWith (hash E)) c1) with
        | (Rejected e, c2) => (Rejected e, c2)
        | (Fulfilled _, c2) =>
            (Fulfilled (Some genesisState),
             logger_info (LogGenesisReady (length (validators genesisState))) c2)
        end
      else (Fulfilled None, logger_info (LogNotValidGenesis (hash E)) c1).
Proof.
  cbn zeta. split_and!.
  - intros x. rewrite processPastDeposits_upTo. apply spec_depositDatas_elem.
  - apply mapDeposits_spec.
  - unfold checkGenesis, checkGenesis_begin.
    rewrite checkGenesis_resume_exits, genesisStateFor_spec. reflexivity.
Qed.

(** ** The event machine *)

Lemma emit_subscribed (E : Eth1Block) (n : @Node BeaconBlockBody DepositData FC) :
  blockListeners (eth1 (chain n)) = [GenesisListener] →
  emit E n = {| chain := checkGenesis_begin E (chain n); wfs := wfs n;
                handlers := handlers n ++ [E] |}.
Proof. intros Hl. unfold emit. by rewrite Hl. Qed.

Lemma emit_unsubscribed (E : Eth1Block) (n : @Node BeaconBlockBody DepositData FC) :
  blockListeners (eth1 (chain n)) = [] → emit E n = n.
Proof. intros Hl. unfold emit. by rewrite Hl. Qed.

(** A handler that ends without a state leaves the promise alone. *)
Lemma fetched_invalid (E : Eth1Block) i (n : @Node BeaconBlockBody DepositData FC) :
  handlers n !! i = Some E →
  isValidGenesisState config (genesisStateFor E (eth1 (chain n))) = false →
  fetched i n
  = {| chain :=
         logger_info (LogNotValidGenesis (hash E))
           (logger_info
              (LogFoundDeposits
                 (length (processPastDeposits None (number E) (eth1 (chain n)))))
              (chain n));
       wfs := wfs n;
       handlers := delete i (handlers n) |}.
Proof.
  intros Hi Hinv. unfold fetched. rewrite Hi, checkGenesis_resume_exits.
  cbn zeta. by rewrite Hinv.
Qed.

Lemma initializeBeaconChain_succeeds genesisState depositDataRootList c :
  noGenesisMismatch genesisState (db c) →
  (∀ w, db_rejects w = false) →
  (initializeBeaconChain genesisState depositDataRootList c).1 = Fulfilled tt.
Proof.
  intros Hok%mismatch_guard Hno. rewrite initializeBeaconChain_exits, Hok.
  by rewrite (proj2 (Promise_all_genesisWrites_result _ _ _ _ _ _) Hno).
Qed.

Lemma checkGenesis_resume_frame (E : Eth1Block) c :
  let c' :=
    (checkGenesis_resume E (processPastDeposits None (number E) (eth1 c)) c).2 in
  eth1 c' = eth1 c ∧ eth1Listener c' = eth1Listener c
  ∧ _currentForkDigest c' = _currentForkDigest c.
Proof.
  cbn zeta. rewrite checkGenesis_resume_exits. cbn zeta.
  destruct (isValidGenesisState config _); [|done].
  match goal with
  | |- context [initializeBeaconChain ?S ?l ?c1] =>
      pose proof (initializeBeaconChain_frame S l c1) as Hf;
      destruct (initializeBeaconChain S l c1) as [[[]|e] c2]
  end; apply Hf.
Qed.

Lemma run_app evs evs' (n : @Node BeaconBlockBody DepositData FC) :
  run (evs ++ evs') n = run evs' (run evs n).
Proof. apply foldl_app. Qed.

Lemma sequential_app (bs bs' : list Eth1Block) :
  sequential (bs ++ bs') = sequential bs ++ sequential bs'.
Proof. apply bind_app. Qed.

Lemma sequential_cons (B : Eth1Block) bs :
  sequential (B :: bs) = [BlockEmitted B; DepositsFetched 0] ++ sequential bs.
Proof. reflexivity. Qed.

(** One block whose state is not valid, handled to its end. *)
Lemma deliver_invalid (E : Eth1Block) (n : @Node BeaconBlockBody DepositData FC) :
  isValidGenesisState config (genesisStateFor E (eth1 (chain n))) = false →
  handlers n = [] →
  blockListeners (eth1 (chain n)) = [GenesisListener] →
  run [BlockEmitted E; DepositsFetched 0] n
  = {| chain :=
         logger_info (LogNotValidGenesis (hash E))
           (logger_info
              (LogFoundDeposits
                 (length (processPastDeposits None (number E) (eth1 (chain n)))))
              (checkGenesis_begin E (chain n)));
       wfs := wfs n;
       handlers := [] |}.
Proof.
  intros Hinv Hh Hl. cbn [run foldl step].
  rewrite (emit_subscribed _ _ Hl), Hh.
  by rewrite (fetched_invalid E 0).
Qed.

(** One block whose state is valid and whose [initializeBeaconChain]
    succeeds, handled to its end while the promise is pending. *)
Lemma deliver_valid (E : Eth1Block) (n : @Node BeaconBlockBody DepositData FC) :
  isValidGenesisState config (genesisStateFor E (eth1 (chain n))) = true →
  noGenesisMismatch (genesisStateFor E (eth1 (chain n))) (db (chain n)) →
  (∀ w, db_rejects w = false) →
  wfs n = AwaitingGenesis →
  handlers n = [] →
  blockListeners (eth1 (chain n)) = [GenesisListener] →
  eth1Listener (chain n) = Some GenesisListener →
  let n' := run [BlockEmitted E; DepositsFetched 0] n in
  wfs n' = Returned (Some (genesisStateFor E (eth1 (chain n))))
  ∧ handlers n' = []
  ∧ blockListeners (eth1 (chain n')) = [].
Proof.
  intros Hval Hok Hno Hw Hh Hl Hfield n'. subst n'. cbn [run foldl step].
  rewrite (emit_subscribed _ _ Hl), Hh. unfold fetched.
  cbn [handlers app lookup list_lookup chain wfs].
  change (eth1 (checkGenesis_begin E (chain n))) with (eth1 (chain n)).
  pose proof (checkGenesis_resume_frame E (checkGenesis_begin E (chain n))) as Hf.
  pose proof (checkGenesis_resume_exits E (checkGenesis_begin E (chain n))) as Hx.
  cbn zeta in Hf, Hx.
  change (eth1 (checkGenesis_begin E (chain n))) with (eth1 (chain n)) in Hf, Hx.
  rewrite Hval in Hx.
  match type of Hx with
  | context [initializeBeaconChain ?S ?l ?c1] =>
      pose proof (initializeBeaconChain_succeeds S l c1 Hok Hno) as Hs;
      destruct (initializeBeaconChain S l c1) as [r c2]
  end.
  cbn [fst] in Hs. subst r.
  destruct (checkGenesis_resume E _ _) as [r c3]. injection Hx as -> ->.
  cbn [snd] in Hf. destruct Hf as (He & Hfl & _).
  cbn [eth1 eth1Listener logger_info checkGenesis_begin] in He, Hfl.
  unfold resolve. cbn [wfs]. rewrite Hw. unfold waitForState_return.
  cbn [chain eth1Listener logger_info]. rewrite Hfl, Hfield. cbn.
  by rewrite He, Hl.
Qed.

(** Blocks that arrive once the listener is gone start nothing. *)
Lemma sequential_unsubscribed bs (n : @Node BeaconBlockBody DepositData FC) :
  handlers n = [] →
  blockListeners (eth1 (chain n)) = [] →
  run (sequential bs) n = n.
Proof.
  intros Hh Hl. induction bs as [|B bs IH]; [done|].
  rewrite sequential_cons, run_app. cbn [run foldl step].
  rewrite (emit_unsubscribed _ _ Hl). unfold fetched. by rewrite Hh.
Qed.

Lemma sequential_invalid bs (n : @Node BeaconBlockBody DepositData FC) :
  Forall (λ B, isValidGenesisState config (genesisStateFor B (eth1 (chain n))) = false)
    bs →
  handlers n = [] →
  blockListeners (eth1 (chain n)) = [GenesisListener] →
  let n' := run (sequential bs) n in
  wfs n' = wfs n ∧ handlers n' = [] ∧ eth1 (chain n') = eth1 (chain n)
  ∧ eth1Listener (chain n') = eth1Listener (chain n)
  ∧ db (chain n') = db (chain n)
  ∧ forkChoice (chain n') = forkChoice (chain n).
Proof.
  revert n. induction bs as [|B bs IH]; intros n Hall Hh Hl; [done|].
  apply Forall_cons in Hall as [HB Hall]. cbn zeta.
  rewrite sequential_cons, run_app, (deliver_invalid B n HB Hh Hl).
  match goal with |- context [run (sequential bs) ?m] => specialize (IH m) end.
  cbn zeta in IH. apply IH; done.
Qed.

Lemma waitForState_awaiting c0 c1 :
  waitForState c0 = (AwaitingGenesis, c1) →
  db_state_getLatest (db c0) = Throws
  ∧ c1 = with_eth1 (eth1_on GenesisListener (eth1 c0))
           (with_eth1Listener GenesisListener (logger_info LogNotStarted c0)).
Proof.
  unfold waitForState, waitForState_return.
  destruct (db_state_getLatest (db c0)); [discriminate|].
  by intros [= <-].
Qed.

(** Over any schedule: the field [eth1Listener] stays set, and the listener
    is subscribed exactly as long as the promise is pending. *)
Lemma step_listener (n : @Node BeaconBlockBody DepositData FC) ev :
  eth1Listener (chain n) = Some GenesisListener →
  (wfs n = AwaitingGenesis ∧ blockListeners (eth1 (chain n)) = [GenesisListener])
  ∨ ((∃ s, wfs n = Returned s) ∧ blockListeners (eth1 (chain n)) = []) →
  eth1Listener (chain (step n ev)) = Some GenesisListener
  ∧ ((wfs (step n ev) = AwaitingGenesis
      ∧ blockListeners (eth1 (chain (step n ev))) = [GenesisListener])
     ∨ ((∃ s, wfs (step n ev) = Returned s)
        ∧ blockListeners (eth1 (chain (step n ev))) = [])).
Proof.
  intros Hfield Hinv. destruct ev as [E|i]; cbn [step].
  - destruct Hinv as [[Hw Hl]|[Hw Hl]].
    + rewrite (emit_subscribed _ _ Hl). cbn. split; [done|by left].
    + rewrite (emit_unsubscribed _ _ Hl). split; [done|by right].
  - unfold fetched. destruct (handlers n !! i) as [E|]; [|naive_solver].
    pose proof (checkGenesis_resume_frame E (chain n)) as Hf. cbn zeta in Hf.
    destruct (checkGenesis_resume E _ (chain n)) as [r c']. cbn [snd] in Hf.
    destruct Hf as (He & Hfl & _).
    destruct r as [[s|]|e]; cbn [chain wfs];
      [|rewrite Hfl, He; naive_solver..].
    unfold resolve. cbn [wfs chain handlers].
    destruct Hinv as [[Hw Hl]|[[s' Hw] Hl]]; rewrite Hw.
    + unfold waitForState_return. rewrite Hfl, Hfield. cbn.
      rewrite He, Hl. split; [congruence|]. right. eauto.
    + cbn. rewrite Hfl, He. split; [done|]. right. eauto.
Qed.

Lemma run_listener evs (n : @Node BeaconBlockBody DepositData FC) :
  eth1Listener (chain n) = Some GenesisListener →
  (wfs n = AwaitingGenesis ∧ blockListeners (eth1 (chain n)) = [GenesisListener])
  ∨ ((∃ s, wfs n = Returned s) ∧ blockListeners (eth1 (chain n)) = []) →
  eth1Listener (chain (run evs n)) = Some GenesisListener
  ∧ ((wfs (run evs n) = AwaitingGenesis
      ∧ blockListeners (eth1 (chain (run evs n))) = [GenesisListener])
     ∨ ((∃ s, wfs (run evs n) = Returned s)
        ∧ blockListeners (eth1 (chain (run evs n))) = [])).
Proof.
  revert n. induction evs as [|ev evs IH]; intros n Hfield Hinv; [done|].
  destruct (step_listener n ev Hfield Hinv) as [Hfield' Hinv'].
  exact (IH (step n ev) Hfield' Hinv').
Qed.

(** C5. When the state computed for an eth1 block fails
    [is_valid_genesis_state], [checkGenesis] returns [null];
    [initializeBeaconChain] is not called (its first log line is absent and
    storage and fork choice are as before), and the coordinator keeps
    waiting: the promise is pending and the listener is still subscribed. *)
Theorem checkGenesis_invalid_keeps_waiting (E : Eth1Block)
    (n : @Node BeaconBlockBody DepositData FC) :
  isValidGenesisState config (genesisStateFor E (eth1 (chain n))) = false →
  wfs n = AwaitingGenesis →
  handlers n = [] →
  blockListeners (eth1 (chain n)) = [GenesisListener] →
  let n' := run [BlockEmitted E; DepositsFetched 0] n in
  checkGenesis E (chain n) = (Fulfilled None, chain n')
  ∧ db (chain n') = db (chain n)
  ∧ forkChoice (chain n') = forkChoice (chain n)
  ∧ logger (chain n')
    = logger (chain n)
      ++ [LogChecking (hash E);
          LogFoundDeposits
            (length (processPastDeposits None (number E) (eth1 (chain n))));
          LogNotValidGenesis (hash E)]
  ∧ wfs n' = AwaitingGenesis
  ∧ blockListeners (eth1 (chain n')) = [GenesisListener]
  ∧ handlers n' = [].
Proof.
  intros Hinv Hw Hh Hl n'. subst n'. cbn [run foldl step].
  rewrite (emit_subscribed _ _ Hl), Hh.
  rewrite (fetched_invalid E 0) by done.
  unfold checkGenesis. cbn zeta.
  pose proof (checkGenesis_resume_exits E (checkGenesis_begin E (chain n))) as Hres.
  cbn zeta in Hres. change (eth1 (checkGenesis_begin E (chain n))) with (eth1 (chain n)) in *.
  rewrite Hinv in Hres. rewrite Hres. cbn.
  split_and!; try done. by rewrite <-!app_assoc.
Qed.

(** C7, as amended. When the handlers of the eth1 blocks do not overlap
    (each [checkGenesis] has ended when the next block is emitted), no
    storage write is rejected and no stored block at slot 0 contradicts it,
    the state that [waitForState] resolves with is the one made from the
    first observed block whose state passes [is_valid_genesis_state]. *)
Theorem first_passing_block_wins c0 c1 (pre post : list Eth1Block) (E : Eth1Block) :
  waitForState c0 = (AwaitingGenesis, c1) →
  blockListeners (eth1 c0) = [] →
  Forall (λ B, isValidGenesisState config (genesisStateFor B (eth1 c0)) = false) pre →
  isValidGenesisState config (genesisStateFor E (eth1 c0)) = true →
  (∀ w, db_rejects w = false) →
  noGenesisMismatch (genesisStateFor E (eth1 c0)) (db c0) →
  wfs (run (sequential (pre ++ E :: post))
         {| chain := c1; wfs := AwaitingGenesis; handlers := [] |})
  = Returned (Some (genesisStateFor E (eth1 c0))).
Proof.
  intros [_ ->]%waitForState_awaiting Hl0 Hpre HE Hno Hok.
  set (c1 := with_eth1 _ _).
  assert (blockListeners (eth1 c1) = [GenesisListener]) as Hl1.
  { subst c1. cbn. by rewrite Hl0. }
  assert (∀ B, genesisStateFor B (eth1 c1) = genesisStateFor B (eth1 c0)) as Hlog.
  { intros B. by apply genesisStateFor_log. }
  set (n1 := {| chain := c1; wfs := AwaitingGenesis; handlers := [] |}).
  rewrite sequential_app, run_app, sequential_cons, run_app.
  destruct (sequential_invalid pre n1) as (Hw & Hh & He & Hfl & Hdb & _);
    [|done|done|].
  { eapply Forall_impl; [exact Hpre|]. intros B HB. cbn. by rewrite Hlog. }
  set (n2 := run (sequential pre) n1) in *.
  destruct (deliver_valid E n2) as (Hw3 & Hh3 & Hl3).
  - by rewrite He, Hlog.
  - by rewrite He, Hlog, Hdb.
  - done.
  - done.
  - done.
  - by rewrite He.
  - by rewrite Hfl.
  - rewrite sequential_unsubscribed by done. by rewrite Hw3, He, Hlog.
Qed.

(** C8. When [waitForState] returns through the genesis bootstrap, the
    listener it installed on the eth1 "block" event has been removed, under
    any interleaving of the handlers: the emitter has no listener of the
    coordinator left, and a block it emits from then on reaches nothing. *)
Theorem waitForState_unsubscribes c0 c1 (evs : list Event) s :
  blockListeners (eth1 c0) = [] →
  waitForState c0 = (AwaitingGenesis, c1) →
  let n := run evs {| chain := c1; wfs := AwaitingGenesis; handlers := [] |} in
  wfs n = Returned s →
  blockListeners (eth1 (chain n)) = []
  ∧ ∀ E, step n (BlockEmitted E) = n.
Proof.
  intros Hl0 [_ ->]%waitForState_awaiting n Hret.
  destruct (run_listener evs
              {| chain := with_eth1 (eth1_on GenesisListener (eth1 c0))
                            (with_eth1Listener GenesisListener
                               (logger_info LogNotStarted c0));
                 wfs := AwaitingGenesis; handlers := [] |})
    as [_ [[Hw _]|[_ Hl]]].
  - done.
  - left. cbn. by rewrite Hl0.
  - fold n in Hw. congruence.
  - fold n in Hl. split; [done|]. intros E. by apply emit_unsubscribed.
Qed.

(** ** [waitForState], [start] and the fork digest *)

Lemma remove_last_length l (ls : list Listener) :
  (length (remove_last l ls) ≤ length ls)%nat.
Proof.
  induction ls as [|x ls IH]; [done|]. cbn.
  destruct (bool_decide (x = l) && negb (bool_decide (l ∈ ls))); cbn; lia.
Qed.

(** C10. [waitForState] takes the listen-for-genesis path exactly when
    [db.state.getLatest()] throws. Whatever [getLatest] returns, a [null]
    included, is what [waitForState] returns, and no listener is added to
    the eth1 emitter; when it throws, the listener is added. *)
Theorem waitForState_fallback c :
  ((waitForState c).1 = AwaitingGenesis ↔ db_state_getLatest (db c) = Throws)
  ∧ match db_state_getLatest (db c) with
    | Returns state =>
        (waitForState c).1 = Returned state
        ∧ (length (blockListeners (eth1 (waitForState c).2))
           ≤ length (blockListeners (eth1 c)))%nat
        ∧ db (waitForState c).2 = db c
        ∧ logger (waitForState c).2 = logger c
    | Throws =>
        blockListeners (eth1 (waitForState c).2)
        = blockListeners (eth1 c) ++ [GenesisListener]
        ∧ eth1Listener (waitForState c).2 = Some GenesisListener
    end.
Proof.
  unfold waitForState, waitForState_return.
  destruct (db_state_getLatest (db c)) as [state|]; cbn [fst snd].
  - split; [split; discriminate|].
    destruct (eth1Listener c); cbn; [|done].
    split_and!; try done. apply remove_last_length.
  - done.
Qed.

(** C9. [getCurrentForkDigest], and with it the end of [start], is safe
    only if the state at [forkChoice.headStateRoot()] is in storage: then it
    gives the digest of that state, and the failing dereference is not
    reached; when [db.state.get] gives [null], the call fails with a
    [TypeError] and so does [start]. *)
Theorem getCurrentForkDigest_head_state c s :
  match state_get (headStateRoot (forkChoice c)) (db c) with
  | Some state =>
      getHeadState c = Some state
      ∧ getCurrentForkDigest c
        = Fulfilled (computeForkDigest config (currentVersion (fork state))
                       (genesisValidatorsRoot state))
  | None =>
      getHeadState c = None
      ∧ getCurrentForkDigest c = Rejected TypeError
  end
  ∧ match state_get (headStateRoot (fc_start (genesisTime s) (forkChoice c))) (db c) with
    | Some state =>
        ∃ c', start_resume (Some s) c = (Fulfilled tt, c')
              ∧ currentForkDigest c'
                = Some (computeForkDigest config (currentVersion (fork state))
                          (genesisValidatorsRoot state))
    | None => (start_resume (Some s) c).1 = Rejected TypeError
    end.
Proof.
  split.
  - unfold getCurrentForkDigest, getHeadState.
    by destruct (state_get _ (db c)).
  - unfold start_resume, getCurrentForkDigest, getHeadState.
    cbn [forkChoice db with_clock logger_info with_forkChoice].
    destruct (state_get _ (db c)); [|done]. eexists. by split.
Qed.

Lemma processorEffect_digest (f : Db → FC → Db * FC) c :
  currentForkDigest (processorEffect f c) = currentForkDigest c.
Proof. unfold processorEffect. by destruct (f (db c) (forkChoice c)). Qed.

(** C6, as amended. When [start] completes, [currentForkDigest] is
    [compute_fork_digest(fork.current_version, genesis_validators_root)] of
    the head state read at the end of [start]. It is cached there: whatever
    the block and attestation processors then do to storage and to the fork
    choice, the coordinator returns the same digest. *)
Theorem currentForkDigest_cached s c c' (fs : list (Db → FC → Db * FC)) :
  start_resume (Some s) c = (Fulfilled tt, c') →
  (∃ state, getHeadState c' = Some state
            ∧ currentForkDigest c'
              = Some (computeForkDigest config (currentVersion (fork state))
                        (genesisValidatorsRoot state)))
  ∧ currentForkDigest (foldr processorEffect c' fs) = currentForkDigest c'.
Proof.
  intros Hstart. split.
  - unfold start_resume, getCurrentForkDigest in Hstart.
    destruct (getHeadState _) as [state|] eqn:Hhead; [|discriminate].
    injection Hstart as <-. exists state. by split.
  - induction fs as [|f fs IH]; [done|]. cbn [foldr].
    by rewrite processorEffect_digest.
Qed.

End Properties.

(** * The coordinator on concrete inputs *)
Section Concrete.

Import Sample.

#[local] Existing Instance sound.

Example bootstrapped_head :
  getHeadState bootstrapped = Some state2
  ∧ justifiedBlockRoot (db bootstrapped) = chain_head (db bootstrapped)
  ∧ length (forkChoice bootstrapped) = 1%nat.
Proof. vm_compute. done. Qed.

Example started_digest : currentForkDigest started = Some version0.
Proof. vm_compute. done. Qed.

Example overlap_first_passes :
  isValidGenesisState config (genesisStateFor block1 follower) = false
  ∧ isValidGenesisState config (genesisStateFor block2 follower) = true
  ∧ isValidGenesisState config (genesisStateFor block3 follower) = true
  ∧ state2 ≠ state3.
Proof. vm_compute. by split_and!. Qed.

(** Witness for C1: the call at [state2], on empty storage. *)
Lemma initializeBeaconChain_genesis_witness :
  let c' := (initializeBeaconChain state2 [[x44; x05]; [x44; x06]] chain0).2 in
  initializeBeaconChain state2 [[x44; x05]; [x44; x06]] chain0 = (Fulfilled tt, c')
  ∧ chain_head (db c') = Some [x42; x00; x53; x14; x02; x00; x00; x00; x00]
  ∧ (stateRoot ∘ message <$> block_get [x42; x00; x53; x14; x02; x00; x00; x00; x00] (db c'))
    = Some (BeaconState_hashTreeRoot cfg state2)
  ∧ (parentRootBuf <$> forkChoice c') = [replicate 32 x00].
Proof.
  cbn zeta.
  assert (initializeBeaconChain state2 [[x44; x05]; [x44; x06]] chain0
          = (Fulfilled tt,
             (initializeBeaconChain state2 [[x44; x05]; [x44; x06]] chain0).2))
    as Hcall by (vm_compute; reflexivity).
  destruct (initializeBeaconChain_genesis _ _ _ _ Hcall) as (Hhead & Hblock & Hfc & _).
  split_and!.
  - exact Hcall.
  - exact Hhead.
  - exact (f_equal (fmap (M := option) (stateRoot ∘ message)) Hblock).
  - rewrite Hfc. reflexivity.
Defined.

(** Witness for C2: storage holds the genesis block of [state3], the call
    brings [state2]. *)
Lemma initializeBeaconChain_mismatch_witness :
  (∃ b, getBlockBySlot GENESIS_SLOT (db chainOfState3) = Some b
        ∧ stateRoot (message b) ≠ BeaconState_hashTreeRoot config state2)
  ∧ ∃ c', initializeBeaconChain state2 [] chainOfState3 = (Rejected GenesisMismatch, c')
          ∧ db c' = db chainOfState3
          ∧ forkChoice c' = forkChoice chainOfState3
          ∧ eth1 c' = eth1 chainOfState3.
Proof.
  assert (getBlockBySlot GENESIS_SLOT (db chainOfState3)
          = Some {| message := genesisBlockOf state3; signature := replicate 96 x00 |})
    as Hb by (vm_compute; reflexivity).
  assert (stateRoot (message {| message := genesisBlockOf state3;
                                signature := replicate 96 x00 |})
          ≠ BeaconState_hashTreeRoot config state2) as Hne
    by (vm_compute; discriminate).
  split; [eauto|].
  exact (initializeBeaconChain_mismatch state2 [] chainOfState3 _ Hb Hne).
Defined.

(** Witness for C7: [block1] has one deposit and fails, [block2] and
    [block3] pass; handled in turn, [block2] gives the genesis state. *)
Lemma first_passing_block_wins_witness :
  waitForState chain0 = (AwaitingGenesis, chain waiting)
  ∧ isValidGenesisState config (genesisStateFor block1 (eth1 chain0)) = false
  ∧ isValidGenesisState config (genesisStateFor block2 (eth1 chain0)) = true
  ∧ wfs (run (sequential ([block1] ++ block2 :: [block3])) waiting)
    = Returned (Some state2).
Proof.
  assert (waitForState chain0 = (AwaitingGenesis, chain waiting)) as Hwait
    by (vm_compute; reflexivity).
  assert (isValidGenesisState config (genesisStateFor block1 (eth1 chain0)) = false)
    as H1 by (vm_compute; reflexivity).
  assert (isValidGenesisState config (genesisStateFor block2 (eth1 chain0)) = true)
    as H2 by (vm_compute; reflexivity).
  split_and!; [exact Hwait | exact H1 | exact H2 |].
  apply (first_passing_block_wins chain0 (chain waiting) [block1] [block3] block2 Hwait).
  - reflexivity.
  - constructor; [exact H1 | constructor].
  - exact H2.
  - intros w. reflexivity.
  - intros b Hb. vm_compute in Hb. discriminate Hb.
Defined.

(** Witness for C8: the run that accepts genesis from [block2]. *)
Lemma waitForState_unsubscribes_witness :
  blockListeners (eth1 chain0) = []
  ∧ wfs (run (sequential [block1; block2]) waiting) = Returned (Some state2)
  ∧ blockListeners (eth1 bootstrapped) = []
  ∧ step (run (sequential [block1; block2]) waiting) (BlockEmitted block3)
    = run (sequential [block1; block2]) waiting.
Proof.
  assert (waitForState chain0 = (AwaitingGenesis, chain waiting)) as Hwait
    by (vm_compute; reflexivity).
  assert (wfs (run (sequential [block1; block2]) waiting) = Returned (Some state2))
    as Hret by (vm_compute; reflexivity).
  destruct (waitForState_unsubscribes chain0 (chain waiting)
              (sequential [block1; block2]) (Some state2) eq_refl Hwait Hret)
    as [Hl Hno].
  split_and!; [reflexivity | exact Hret | exact Hl | exact (Hno block3)].
Defined.

(** Witness for C5: [block1], whose single deposit does not make a valid
    genesis state. *)
Lemma checkGenesis_invalid_keeps_waiting_witness :
  isValidGenesisState config (genesisStateFor block1 (eth1 (chain waiting))) = false
  ∧ checkGenesis block1 (chain waiting)
    = (Fulfilled None, chain (run [BlockEmitted block1; DepositsFetched 0] waiting))
  ∧ db (chain (run [BlockEmitted block1; DepositsFetched 0] waiting)) = Db_empty
  ∧ wfs (run [BlockEmitted block1; DepositsFetched 0] waiting) = AwaitingGenesis.
Proof.
  assert (isValidGenesisState config
            (genesisStateFor block1 (eth1 (chain waiting))) = false)
    as Hinv by (vm_compute; reflexivity).
  destruct (checkGenesis_invalid_keeps_waiting block1 waiting Hinv eq_refl eq_refl eq_refl)
    as (Hcall & Hdb & _ & _ & Hw & _).
  split_and!; [exact Hinv | exact Hcall | exact Hdb | exact Hw].
Defined.

(** Witness for C6: [start] completes on the bootstrapped coordinator, then
    the head moves past the fork. *)
Lemma currentForkDigest_cached_witness :
  start_resume (Some state2) bootstrapped = (Fulfilled tt, started)
  ∧ getHeadState started = Some state2
  ∧ currentForkDigest started = Some version0
  ∧ currentForkDigest afterFork = Some version0.
Proof.
  assert (start_resume (Some state2) bootstrapped = (Fulfilled tt, started)) as Hstart
    by (vm_compute; reflexivity).
  destruct (currentForkDigest_cached state2 bootstrapped started [applyForkBlock] Hstart)
    as [(state & Hhead & Hdigest) Hkeep].
  assert (getHeadState started = Some state2) as Hhead2 by (vm_compute; reflexivity).
  assert (state = state2) as -> by congruence.
  split_and!; [exact Hstart | exact Hhead2 | exact Hdigest |].
  change afterFork with (foldr processorEffect started [applyForkBlock]).
  rewrite Hkeep. exact Hdigest.
Defined.

(** C6, counterexample. [start] has completed and cached the digest of
    fork version 0; the block processor then moves the head to a state of
    fork version 1, and [currentForkDigest] is not the digest of that head
    state. *)
Lemma currentForkDigest_stale :
  start_resume (Some state2) bootstrapped = (Fulfilled tt, started)
  ∧ getHeadState afterFork = Some forked
  ∧ currentForkDigest afterFork
    ≠ Some (computeForkDigest config (currentVersion (fork forked))
              (genesisValidatorsRoot forked)).
Proof. vm_compute. split_and!; [reflexivity | reflexivity | discriminate]. Qed.

(** C7, counterexample. [block2] is observed first and [block3] second,
    both pass; the fetch of [block3] is answered first, and [waitForState]
    resolves with the state of [block3]. *)
Lemma second_block_wins_when_handlers_overlap :
  isValidGenesisState config (genesisStateFor block2 (eth1 chain0)) = true
  ∧ isValidGenesisState config (genesisStateFor block3 (eth1 chain0)) = true
  ∧ wfs (run [BlockEmitted block2; BlockEmitted block3;
              DepositsFetched 1; DepositsFetched 0] waiting)
    = Returned (Some (genesisStateFor block3 (eth1 chain0)))
  ∧ wfs (run [BlockEmitted block2; BlockEmitted block3;
              DepositsFetched 1; DepositsFetched 0] waiting)
    ≠ Returned (Some (genesisStateFor block2 (eth1 chain0))).
Proof. vm_compute. split_and!; [reflexivity.. | discriminate]. Qed.

End Concrete.

(** ** A storage backend that rejects one write *)
Section OneRejection.

Import Sample.

#[local] Existing Instance faulty.

(** Witness for C3: the write of the finalized state root is rejected. *)
Lemma initializeBeaconChain_writes_witness :
  noGenesisMismatch state2 (db chain0)
  ∧ (∃ e, (initializeBeaconChain state2 [] chain0).1 = Rejected e)
  ∧ forkChoice (initializeBeaconChain state2 [] chain0).2 = []
  ∧ finalizedStateRoot (db (initializeBeaconChain state2 [] chain0).2) = None
  ∧ justifiedStateRoot (db (initializeBeaconChain state2 [] chain0).2)
    = Some (BeaconState_hashTreeRoot cfg state2).
Proof.
  assert (noGenesisMismatch state2 (db chain0)) as Hok.
  { intros b Hb. vm_compute in Hb. discriminate Hb. }
  destruct (initializeBeaconChain_writes state2 [] chain0 Hok)
    as (Hcommitted & Huntouched & _ & Hfail).
  split_and!.
  - exact Hok.
  - exact (proj1 (Hfail SetFinalizedStateRoot eq_refl)).
  - exact (proj2 (Hfail SetFinalizedStateRoot eq_refl)).
  - exact (Huntouched SetFinalizedStateRoot eq_refl).
  - exact (Hcommitted SetJustifiedStateRoot eq_refl).
Defined.

(** C3, counterexample. No mismatching block is stored and the backend
    rejects the write of the finalized state root: after the call the chain
    head is committed and the finalized state root is not, so the records
    are neither all committed nor all left alone. *)
Lemma initializeBeaconChain_not_atomic :
  noGenesisMismatch state2 (db chain0)
  ∧ ¬ ((∀ w, committed state2 [] w (db (initializeBeaconChain state2 [] chain0).2))
       ∨ (∀ w, untouched w (db chain0) (db (initializeBeaconChain state2 [] chain0).2))).
Proof.
  split.
  - intros b Hb. vm_compute in Hb. discriminate Hb.
  - intros [Hall|Hnone].
    + specialize (Hall SetFinalizedStateRoot). vm_compute in Hall. discriminate Hall.
    + destruct (Hnone StoreChainHead) as (_ & _ & Hhead).
      vm_compute in Hhead. discriminate Hhead.
Qed.

End OneRejection.

(** * Further properties of the coordinator *)
Section Lifecycle.

Context {BeaconBlockBody DepositData : Type} {FC : Type} {ghost : ILMDGHOST FC}.
Context {env : @Collaborators BeaconBlockBody DepositData}.

Implicit Types (c : @BeaconChain BeaconBlockBody DepositData FC).
Implicit Types (n : @Node BeaconBlockBody DepositData FC).
Implicit Types (d : @Db BeaconBlockBody).
Implicit Types (genesisState : BeaconState) (depositDataRootList : list Root).
Implicit Types (E : Eth1Block).

(** ** The deposit loop *)

(** X1. The loop of [checkGenesis] over a list of deposit datas followed by
    more datas gives, first, the deposits it gives for the first list alone:
    the proof attached to a deposit does not depend on the deposits that
    come after it. *)
Theorem mapDeposits_app (k : nat) (l1 l2 : list DepositData) (acc : list Root) :
  mapDeposits k (l1 ++ l2) acc
  = let '(d1, acc1) := mapDeposits k l1 acc in
    let '(d2, acc2) := mapDeposits (k + length l1) l2 acc1 in
    (d1 ++ d2, acc2).
Proof.
  revert k acc. induction l1 as [|x l1 IH]; intros k acc.
  - cbn. rewrite Nat.add_0_r. by destruct (mapDeposits k l2 acc).
  - cbn [app mapDeposits length]. rewrite IH, Nat.add_succ_r.
    destruct (mapDeposits (S k) l1 _) as [d1 acc1]. cbn.
    by destruct (mapDeposits (S (k + length l1)) l2 acc1).
Qed.

(** X2. The deposits handed to [initializeBeaconStateFromEth1] carry the
    fetched deposit datas, each once and in the order fetched, and the root
    list ends up one root longer per deposit. *)
Theorem mapDeposits_datas (k : nat) (datas : list DepositData) (acc : list Root) :
  data <$> (mapDeposits k datas acc).1 = datas
  ∧ length (mapDeposits k datas acc).1 = length datas
  ∧ length (mapDeposits k datas acc).2 = (length acc + length datas)%nat.
Proof.
  revert k acc. induction datas as [|x datas IH]; intros k acc.
  - cbn. split_and!; [done..|lia].
  - cbn [mapDeposits].
    specialize (IH (S k) (acc ++ [DepositData_hashTreeRoot config x])).
    destruct (mapDeposits (S k) datas _) as [ds l]. cbn [fst snd] in IH |- *.
    destruct IH as (Hd & Hl & Hr). rewrite fmap_cons, Hd. cbn [length data].
    rewrite Hl, Hr, length_app. cbn. split_and!; [done..|lia].
Qed.

(** ** [initializeBeaconChain], once more *)


Lemma allCommitted_committed genesisState depositDataRootList d w :
  committed genesisState depositDataRootList w
    (allCommitted genesisState depositDataRootList d).
Proof.
  destruct w; cbn; rewrite ?lookup_insert_eq; by split_and?.
Qed.



Lemma initializeBeaconChain_fulfils genesisState depositDataRootList c :
  noGenesisMismatch genesisState (db c) →
  (∀ w, db_rejects w = false) →
  initializeBeaconChain genesisState depositDataRootList c
  = (Fulfilled tt,
     logger_info LogInitialized
       (with_forkChoice (addBlock (genesisNode genesisState) (forkChoice c))
          (with_db (allCommitted genesisState depositDataRootList (db c))
             (logger_info
                (LogInitializing (BeaconState_hashTreeRoot config genesisState)
                   (BeaconBlock_hashTreeRoot config (genesisBlockOf genesisState)))
                c)))).
Proof.
  intros Hok%mismatch_guard Hno. rewrite initializeBeaconChain_exits, Hok.
  rewrite (proj2 (Promise_all_genesisWrites_result _ _ _ _ _ _) Hno).
  rewrite Promise_all_genesisWrites. cbn zeta. by rewrite !Hno.
Qed.

Lemma initializeBeaconChain_fulfilled genesisState depositDataRootList c c' :
  initializeBeaconChain genesisState depositDataRootList c = (Fulfilled tt, c') →
  noGenesisMismatch genesisState (db c)
  ∧ (∀ w, db_rejects w = false)
  ∧ db c' = allCommitted genesisState depositDataRootList (db c)
  ∧ forkChoice c' = addBlock (genesisNode genesisState) (forkChoice c).
Proof.
  intros Hcall.
  assert (noGenesisMismatch genesisState (db c)) as Hok.
  { apply mismatch_guard. rewrite initializeBeaconChain_exits in Hcall.
    by destruct (match getBlockBySlot GENESIS_SLOT (db c) with
                 | Some _ => _ | None => _ end). }
  assert (∀ w, db_rejects w = false) as Hno.
  { rewrite initializeBeaconChain_exits in Hcall.
    rewrite (proj2 (mismatch_guard _ _) Hok) in Hcall.
    apply (Promise_all_genesisWrites_result
             (genesisBlockOf genesisState)
             (BeaconBlock_hashTreeRoot config (genesisBlockOf genesisState))
             (BeaconState_hashTreeRoot config genesisState)
             genesisState depositDataRootList (db c)).
    by destruct (Promise_all _ (db c)).1 as [[]|e]. }
  rewrite (initializeBeaconChain_fulfils _ _ _ Hok Hno) in Hcall.
  injection Hcall as <-. done.
Qed.

Lemma initializeBeaconChain_mismatch_exit genesisState depositDataRootList c b :
  getBlockBySlot GENESIS_SLOT (db c) = Some b →
  stateRoot (message b) ≠ BeaconState_hashTreeRoot config genesisState →
  initializeBeaconChain genesisState depositDataRootList c
  = (Rejected GenesisMismatch,
     logger_info
       (LogInitializing (BeaconState_hashTreeRoot config genesisState)
          (BeaconBlock_hashTreeRoot config (genesisBlockOf genesisState)))
       c).
Proof.
  intros Hb Hne. rewrite initializeBeaconChain_exits, Hb.
  unfold Root_equals. cbn [genesisBlockOf stateRoot].
  by rewrite bool_decide_eq_false_2 by congruence.
Qed.

Lemma initializeBeaconChain_clock genesisState depositDataRootList c :
  clock (initializeBeaconChain genesisState depositDataRootList c).2 = clock c.
Proof.
  rewrite initializeBeaconChain_exits.
  destruct (match getBlockBySlot GENESIS_SLOT (db c) with Some _ => _ | None => _ end);
    [done|].
  by destruct (Promise_all _ (db c)).1.
Qed.

(** X3. After a call of [initializeBeaconChain] that succeeds, the head
    accessors find what the call stored, provided the fork choice names the
    genesis node as its head: [getHeadState] gives the genesis state and
    [getHeadBlock] the genesis block, whose state root is the root of that
    state. *)
Theorem head_after_initializeBeaconChain genesisState depositDataRootList c c' :
  initializeBeaconChain genesisState depositDataRootList c = (Fulfilled tt, c') →
  headStateRoot (forkChoice c') = BeaconState_hashTreeRoot config genesisState →
  head (forkChoice c')
  = BeaconBlock_hashTreeRoot config (genesisBlockOf genesisState) →
  getHeadState c' = Some genesisState
  ∧ getHeadBlock c'
    = Some {| message := genesisBlockOf genesisState; signature := EMPTY_SIGNATURE |}
  ∧ (stateRoot ∘ message <$> getHeadBlock c')
    = Some (BeaconState_hashTreeRoot config genesisState).
Proof.
  intros (_ & _ & Hdb & _)%initializeBeaconChain_fulfilled Hs Hb.
  unfold getHeadState, getHeadBlock, state_get, block_get.
  rewrite Hs, Hb, Hdb. cbn. rewrite !lookup_insert_eq. done.
Qed.

(** X4. [start], resumed with the genesis state that a successful
    [initializeBeaconChain] has just stored, completes: the head state is in
    storage, so the fork digest is that of the genesis state, and the clock
    is anchored at its genesis time. The fork choice is asked to name the
    genesis node's state as head state. *)
Theorem start_after_genesis genesisState depositDataRootList c c' :
  initializeBeaconChain genesisState depositDataRootList c = (Fulfilled tt, c') →
  headStateRoot (fc_start (genesisTime genesisState) (forkChoice c'))
  = BeaconState_hashTreeRoot config genesisState →
  ∃ c'', start_resume (Some genesisState) c' = (Fulfilled tt, c'')
         ∧ currentForkDigest c''
           = Some (computeForkDigest config (currentVersion (fork genesisState))
                     (genesisValidatorsRoot genesisState))
         ∧ clock c'' = Some (genesisTime genesisState)
         ∧ db c'' = db c'.
Proof.
  intros (_ & _ & Hdb & _)%initializeBeaconChain_fulfilled Hs.
  unfold start_resume, getCurrentForkDigest, getHeadState, state_get.
  cbn [forkChoice db with_clock logger_info with_forkChoice].
  rewrite Hs, Hdb. cbn. rewrite lookup_insert_eq. eexists. by split_and!.
Qed.


(** ** The event machine, over any schedule *)

(** Calling the listeners changes the log and the suspended handlers only. *)
Lemma invokeListeners_frame E (ls : list Listener) n :
  let n' := foldl (invokeListener E) n ls in
  db (chain n') = db (chain n)
  ∧ forkChoice (chain n') = forkChoice (chain n)
  ∧ eth1 (chain n') = eth1 (chain n)
  ∧ clock (chain n') = clock (chain n)
  ∧ _currentForkDigest (chain n') = _currentForkDigest (chain n)
  ∧ eth1Listener (chain n') = eth1Listener (chain n)
  ∧ wfs n' = wfs n
  ∧ handlers n' = handlers n ++ replicate (length ls) E.
Proof.
  revert n. induction ls as [|l ls IH]; intros n.
  - cbn. by rewrite app_nil_r.
  - cbn [foldl]. specialize (IH (invokeListener E n l)). cbn zeta in IH |- *.
    destruct IH as (-> & -> & -> & -> & -> & -> & -> & ->).
    destruct l. cbn. by rewrite <-app_assoc.
Qed.

Lemma emit_frame E n :
  db (chain (emit E n)) = db (chain n)
  ∧ forkChoice (chain (emit E n)) = forkChoice (chain n)
  ∧ eth1 (chain (emit E n)) = eth1 (chain n)
  ∧ clock (chain (emit E n)) = clock (chain n)
  ∧ _currentForkDigest (chain (emit E n)) = _currentForkDigest (chain n)
  ∧ eth1Listener (chain (emit E n)) = eth1Listener (chain n)
  ∧ wfs (emit E n) = wfs n
  ∧ ∃ k, handlers (emit E n) = handlers n ++ replicate k E.
Proof.
  destruct (invokeListeners_frame E (blockListeners (eth1 (chain n))) n)
    as (? & ? & ? & ? & ? & ? & ? & ?).
  unfold emit. split_and!; try done. eauto.
Qed.

(** The step that answers the fetch of a suspended handler, by the exits of
    the handler. *)
Lemma fetched_exits E i n :
  handlers n !! i = Some E →
  let genesisState := genesisStateFor E (eth1 (chain n)) in
  let datas := spec_depositDatas E (eth1 (chain n)) in
  let c1 := logger_info (LogFoundDeposits (length datas)) (chain n) in
  let rest := delete i (handlers n) in
  fetched i n
  = if isValidGenesisState config genesisState then
      match initializeBeaconChain genesisState (spec_depositRoots datas)
              (logger_info (LogInitializingWith (hash E)) c1) with
      | (Rejected e, c2) => {| chain := c2; wfs := wfs n; handlers := rest |}
      | (Fulfilled _, c2) =>
          resolve genesisState
            {| chain :=
                 logger_info (LogGenesisReady (length (validators genesisState))) c2;
               wfs := wfs n; handlers := rest |}
      end
    else {| chain := logger_info (LogNotValidGenesis (hash E)) c1;
            wfs := wfs n; handlers := rest |}.
Proof.
  intros Hi. cbn zeta. unfold fetched. rewrite Hi, checkGenesis_resume_exits.
  cbn zeta. destruct (isValidGenesisState config _); [|done].
  by destruct (initializeBeaconChain _ _ _) as [[[]|e] c2].
Qed.

Lemma resolve_frame (s : BeaconState) n :
  db (chain (resolve s n)) = db (chain n)
  ∧ forkChoice (chain (resolve s n)) = forkChoice (chain n)
  ∧ depositLog (eth1 (chain (resolve s n))) = depositLog (eth1 (chain n))
  ∧ clock (chain (resolve s n)) = clock (chain n)
  ∧ _currentForkDigest (chain (resolve s n)) = _currentForkDigest (chain n)
  ∧ eth1Listener (chain (resolve s n)) = eth1Listener (chain n)
  ∧ handlers (resolve s n) = handlers n.
Proof.
  unfold resolve, waitForState_return.
  destruct (wfs n); [|done].
  destruct (eth1Listener (chain n)) eqn:Hl; cbn; by rewrite ?Hl.
Qed.

(** What no step of the machine changes. *)
Lemma step_frame n ev :
  clock (chain (step n ev)) = clock (chain n)
  ∧ _currentForkDigest (chain (step n ev)) = _currentForkDigest (chain n)
  ∧ eth1Listener (chain (step n ev)) = eth1Listener (chain n)
  ∧ depositLog (eth1 (chain (step n ev))) = depositLog (eth1 (chain n)).
Proof.
  destruct ev as [E|i]; cbn [step].
  - destruct (emit_frame E n) as (_ & _ & -> & -> & -> & -> & _). done.
  - destruct (handlers n !! i) as [E|] eqn:Hi;
      [|unfold fetched; by rewrite Hi].
    rewrite (fetched_exits E i n Hi). cbn zeta.
    destruct (isValidGenesisState config _); [|done].
    match goal with
    | |- context [initializeBeaconChain ?S ?l ?c1] =>
        pose proof (initializeBeaconChain_frame S l c1) as (He & Hl & Hd);
        pose proof (initializeBeaconChain_clock S l c1) as Hc;
        destruct (initializeBeaconChain S l c1) as [[[]|e] c2]
    end; cbn [snd] in He, Hl, Hd, Hc.
    + match goal with
      | |- context [resolve ?s ?m] =>
          destruct (resolve_frame s m) as (_ & _ & -> & -> & -> & -> & _)
      end.
      cbn. by rewrite He, Hl, Hd, Hc.
    + cbn. by rewrite He, Hl, Hd, Hc.
Qed.

Lemma run_cons ev evs n : run (ev :: evs) n = run evs (step n ev).
Proof. reflexivity. Qed.

Lemma run_frame evs n :
  clock (chain (run evs n)) = clock (chain n)
  ∧ _currentForkDigest (chain (run evs n)) = _currentForkDigest (chain n)
  ∧ eth1Listener (chain (run evs n)) = eth1Listener (chain n)
  ∧ depositLog (eth1 (chain (run evs n))) = depositLog (eth1 (chain n)).
Proof.
  revert n. induction evs as [|ev evs IH]; intros n; [done|].
  rewrite run_cons. destruct (IH (step n ev)) as (-> & -> & -> & ->).
  apply step_frame.
Qed.

(** X6. While the coordinator bootstraps genesis, under any schedule of
    eth1 events and handlers, [currentForkDigest] and the clock stay as they
    were: the digest is assigned by the last line of [start] and nowhere
    else, so it is still unset when [waitForState] returns. *)
Theorem bootstrap_leaves_digest_and_clock (evs : list Event) n :
  currentForkDigest (chain (run evs n)) = currentForkDigest (chain n)
  ∧ clock (chain (run evs n)) = clock (chain n).
Proof.
  destruct (run_frame evs n) as (Hc & Hd & _). by split.
Qed.

Lemma step_returned n ev s :
  wfs n = Returned s → wfs (step n ev) = Returned s.
Proof.
  intros Hw. destruct ev as [E|i]; cbn [step].
  - destruct (emit_frame E n) as (_ & _ & _ & _ & _ & _ & -> & _). done.
  - destruct (handlers n !! i) as [E|] eqn:Hi;
      [|unfold fetched; by rewrite Hi].
    rewrite (fetched_exits E i n Hi). cbn zeta.
    destruct (isValidGenesisState config _); [|done].
    destruct (initializeBeaconChain _ _ _) as [[[]|e] c2]; [|done].
    unfold resolve. cbn [wfs]. by rewrite Hw.
Qed.

(** X7. The promise of [waitForState] settles once: after it has returned
    a state, no later event, and no handler still in flight that calls
    [resolve] again, changes what it returned. *)
Theorem returned_is_final (evs : list Event) n s :
  wfs n = Returned s → wfs (run evs n) = Returned s.
Proof.
  revert n. induction evs as [|ev evs IH]; intros n Hw; [done|].
  rewrite run_cons. apply IH. by apply step_returned.
Qed.

(** One step keeps: the suspended handlers are of blocks in [P]; the
    deposit log is that of [e0]; if the promise has settled, it settled with
    the valid genesis state of a block in [P]. *)
Lemma step_resolved (P : Eth1Block → Prop) (e0 : @Eth1Notifier DepositData) n ev :
  match ev with BlockEmitted E => P E | DepositsFetched _ => True end →
  Forall P (handlers n) →
  depositLog (eth1 (chain n)) = depositLog e0 →
  (wfs n = AwaitingGenesis
   ∨ ∃ E, P E ∧ wfs n = Returned (Some (genesisStateFor E e0))
          ∧ isValidGenesisState config (genesisStateFor E e0) = true) →
  Forall P (handlers (step n ev))
  ∧ depositLog (eth1 (chain (step n ev))) = depositLog e0
  ∧ (wfs (step n ev) = AwaitingGenesis
     ∨ ∃ E, P E ∧ wfs (step n ev) = Returned (Some (genesisStateFor E e0))
            ∧ isValidGenesisState config (genesisStateFor E e0) = true).
Proof.
  intros Hev Hh Hlog Hw.
  destruct (step_frame n ev) as (_ & _ & _ & Hlog').
  split_and!; [|by rewrite Hlog'|].
  - destruct ev as [E|i]; cbn [step].
    + destruct (emit_frame E n) as (_ & _ & _ & _ & _ & _ & _ & k & ->).
      apply Forall_app_2; [done|]. by apply Forall_replicate.
    + destruct (handlers n !! i) as [E|] eqn:Hi;
        [|unfold fetched; by rewrite Hi].
      rewrite (fetched_exits E i n Hi). cbn zeta.
      destruct (isValidGenesisState config _); [|by apply Forall_delete].
      destruct (initializeBeaconChain _ _ _) as [[[]|e] c2];
        [|by apply Forall_delete].
      match goal with
      | |- context [resolve ?s ?m] =>
          destruct (resolve_frame s m) as (_ & _ & _ & _ & _ & _ & ->)
      end.
      by apply Forall_delete.
  - destruct ev as [E|i]; cbn [step].
    + destruct (emit_frame E n) as (_ & _ & _ & _ & _ & _ & -> & _). done.
    + destruct (handlers n !! i) as [E|] eqn:Hi;
        [|unfold fetched; by rewrite Hi].
      rewrite (fetched_exits E i n Hi). cbn zeta.
      rewrite (genesisStateFor_log E (eth1 (chain n)) e0 Hlog).
      destruct (isValidGenesisState config _) eqn:Hval; [|done].
      destruct (initializeBeaconChain _ _ _) as [[[]|e] c2]; [|done].
      unfold resolve. cbn [wfs].
      destruct Hw as [->|(E' & HE' & -> & Hval')].
      * right. exists E. split_and!; [|done..].
        by eapply Forall_lookup_1.
      * right. by exists E'.
Qed.

Lemma run_resolved (P : Eth1Block → Prop) (e0 : @Eth1Notifier DepositData) evs n :
  Forall (λ ev, match ev with BlockEmitted E => P E | DepositsFetched _ => True end)
    evs →
  Forall P (handlers n) →
  depositLog (eth1 (chain n)) = depositLog e0 →
  (wfs n = AwaitingGenesis
   ∨ ∃ E, P E ∧ wfs n = Returned (Some (genesisStateFor E e0))
          ∧ isValidGenesisState config (genesisStateFor E e0) = true) →
  wfs (run evs n) = AwaitingGenesis
  ∨ ∃ E, P E ∧ wfs (run evs n) = Returned (Some (genesisStateFor E e0))
         ∧ isValidGenesisState config (genesisStateFor E e0) = true.
Proof.
  revert n. induction evs as [|ev evs IH]; intros n Hevs Hh Hlog Hw; [done|].
  apply Forall_cons in Hevs as [Hev Hevs].
  destruct (step_resolved P e0 n ev Hev Hh Hlog Hw) as (Hh' & Hlog' & Hw').
  rewrite run_cons. exact (IH (step n ev) Hevs Hh' Hlog' Hw').
Qed.

(** X8. Under any schedule, overlapping handlers included, the state that
    [waitForState] returns through the bootstrap is never [null] and never
    a state that failed the check: it is the genesis state built for one of
    the eth1 blocks that were emitted, and it passes
    [isValidGenesisState]. *)
Theorem resolved_state_is_valid_genesis (evs : list Event) n s :
  wfs n = AwaitingGenesis →
  handlers n = [] →
  wfs (run evs n) = Returned s →
  ∃ E, BlockEmitted E ∈ evs
       ∧ s = Some (genesisStateFor E (eth1 (chain n)))
       ∧ isValidGenesisState config (genesisStateFor E (eth1 (chain n))) = true.
Proof.
  intros Hw Hh Hret.
  destruct (run_resolved (λ E, BlockEmitted E ∈ evs) (eth1 (chain n)) evs n)
    as [Hw'|(E & HE & Hw' & Hval)].
  - apply Forall_forall. intros [E|i] Hin; done.
  - rewrite Hh. constructor.
  - done.
  - by left.
  - congruence.
  - exists E. split_and!; [done| |done]. congruence.
Qed.

(** One step over blocks whose state is not valid writes nothing. *)
Lemma step_invalid (e0 : @Eth1Notifier DepositData) n ev :
  match ev with
  | BlockEmitted E => isValidGenesisState config (genesisStateFor E e0) = false
  | DepositsFetched _ => True
  end →
  Forall (λ E, isValidGenesisState config (genesisStateFor E e0) = false)
    (handlers n) →
  eth1 (chain n) = e0 →
  Forall (λ E, isValidGenesisState config (genesisStateFor E e0) = false)
    (handlers (step n ev))
  ∧ eth1 (chain (step n ev)) = e0
  ∧ db (chain (step n ev)) = db (chain n)
  ∧ forkChoice (chain (step n ev)) = forkChoice (chain n)
  ∧ wfs (step n ev) = wfs n.
Proof.
  intros Hev Hh He. destruct ev as [E|i]; cbn [step].
  - destruct (emit_frame E n) as (-> & -> & -> & _ & _ & _ & -> & k & ->).
    split_and!; try done. apply Forall_app_2; [done|]. by apply Forall_replicate.
  - destruct (handlers n !! i) as [E|] eqn:Hi;
      [|unfold fetched; by rewrite Hi].
    rewrite (fetched_invalid E i n Hi).
    + cbn. split_and!; try done. by apply Forall_delete.
    + rewrite He. by eapply (Forall_lookup_1 _ _ _ _ Hh).
Qed.

Lemma run_invalid (e0 : @Eth1Notifier DepositData) evs n :
  Forall (λ ev, match ev with
                | BlockEmitted E =>
                    isValidGenesisState config (genesisStateFor E e0) = false
                | DepositsFetched _ => True
                end) evs →
  Forall (λ E, isValidGenesisState config (genesisStateFor E e0) = false)
    (handlers n) →
  eth1 (chain n) = e0 →
  db (chain (run evs n)) = db (chain n)
  ∧ forkChoice (chain (run evs n)) = forkChoice (chain n)
  ∧ eth1 (chain (run evs n)) = e0
  ∧ wfs (run evs n) = wfs n.
Proof.
  intros Hall. revert n.
  induction Hall as [|ev evs Hev _ IH]; intros n HF He; [done|].
  destruct (step_invalid e0 n ev Hev HF He) as (HF' & He' & Hdb & Hfc & Hw).
  rewrite run_cons. destruct (IH (step n ev) HF' He') as (-> & -> & -> & ->).
  by rewrite Hdb, Hfc, Hw.
Qed.

(** X9. As long as no emitted eth1 block gives a valid genesis state, the
    coordinator writes nothing, under any schedule: storage and fork choice
    are as before, the promise of [waitForState] is as it was, and the eth1
    emitter keeps its listeners. *)
Theorem no_valid_block_no_writes (evs : list Event) n :
  handlers n = [] →
  (∀ E, BlockEmitted E ∈ evs →
        isValidGenesisState config (genesisStateFor E (eth1 (chain n))) = false) →
  db (chain (run evs n)) = db (chain n)
  ∧ forkChoice (chain (run evs n)) = forkChoice (chain n)
  ∧ eth1 (chain (run evs n)) = eth1 (chain n)
  ∧ wfs (run evs n) = wfs n.
Proof.
  intros Hh Hevs. apply run_invalid; [|by rewrite Hh; constructor|done].
  apply Forall_forall. intros [E|i] Hin; [by apply Hevs|done].
Qed.

(** ** Handlers whose [initializeBeaconChain] fails, or comes late *)

(** X10. A handler that builds a valid genesis state while storage holds,
    at slot 0, a block with another state root ends in the
    different-configuration error, and nothing catches it: the promise of
    [waitForState] is not settled, the listener stays subscribed, storage
    and fork choice are untouched. *)
Theorem handler_genesis_mismatch E i n b :
  handlers n !! i = Some E →
  isValidGenesisState config (genesisStateFor E (eth1 (chain n))) = true →
  getBlockBySlot GENESIS_SLOT (db (chain n)) = Some b →
  stateRoot (message b)
  ≠ BeaconState_hashTreeRoot config (genesisStateFor E (eth1 (chain n))) →
  (checkGenesis_resume E (processPastDeposits None (number E) (eth1 (chain n)))
     (chain n)).1 = Rejected GenesisMismatch
  ∧ wfs (fetched i n) = wfs n
  ∧ db (chain (fetched i n)) = db (chain n)
  ∧ forkChoice (chain (fetched i n)) = forkChoice (chain n)
  ∧ eth1 (chain (fetched i n)) = eth1 (chain n)
  ∧ handlers (fetched i n) = delete i (handlers n).
Proof.
  intros Hi Hval Hb Hne.
  rewrite (fetched_exits E i n Hi), checkGenesis_resume_exits. cbn zeta.
  rewrite Hval.
  rewrite (initializeBeaconChain_mismatch_exit _ _ _ b) by done.
  by split_and!.
Qed.

(** The chain head survives the rejection of any of the other writes. *)
Lemma storeChainHead_survives genesisState depositDataRootList c :
  noGenesisMismatch genesisState (db c) →
  db_rejects StoreChainHead = false →
  committed genesisState depositDataRootList StoreChainHead
    (db (initializeBeaconChain genesisState depositDataRootList c).2).
Proof.
  intros Hok%mismatch_guard Hhead.
  rewrite initializeBeaconChain_exits, Hok.
  pose proof (Promise_all_genesisWrites (genesisBlockOf genesisState)
                (BeaconBlock_hashTreeRoot config (genesisBlockOf genesisState))
                (BeaconState_hashTreeRoot config genesisState)
                genesisState depositDataRootList (db c)) as Hdb.
  destruct (Promise_all _ (db c)) as [r d']. cbn [fst snd] in Hdb |- *.
  cbn zeta in Hdb. rewrite Hhead in Hdb.
  assert (db_block d' !! BeaconBlock_hashTreeRoot config (genesisBlockOf genesisState)
          = Some {| message := genesisBlockOf genesisState;
                    signature := EMPTY_SIGNATURE |}
          ∧ db_state d' !! BeaconState_hashTreeRoot config genesisState
            = Some genesisState
          ∧ chain_head d'
            = Some (BeaconBlock_hashTreeRoot config (genesisBlockOf genesisState)))
    as Hd'.
  { subst d'.
    destruct (db_rejects SetJustifiedBlockRoot), (db_rejects SetFinalizedBlockRoot),
      (db_rejects SetJustifiedStateRoot), (db_rejects SetFinalizedStateRoot),
      (db_rejects SetDepositDataRootList); cbn; by rewrite !lookup_insert_eq. }
  by destruct r.
Qed.

Lemma initializeBeaconChain_rejects genesisState depositDataRootList c w :
  db_rejects w = true →
  (∃ e, (initializeBeaconChain genesisState depositDataRootList c).1 = Rejected e)
  ∧ forkChoice (initializeBeaconChain genesisState depositDataRootList c).2
    = forkChoice c.
Proof.
  intros Hw. rewrite initializeBeaconChain_exits.
  destruct (match getBlockBySlot GENESIS_SLOT (db c) with Some _ => _ | None => _ end);
    [by eauto|].
  pose proof (Promise_all_genesisWrites_result (genesisBlockOf genesisState)
                (BeaconBlock_hashTreeRoot config (genesisBlockOf genesisState))
                (BeaconState_hashTreeRoot config genesisState)
                genesisState depositDataRootList (db c)) as Hres.
  destruct (Promise_all _ (db c)).1 as [[]|e]; [|by eauto].
  rewrite (proj1 Hres eq_refl w) in Hw. discriminate.
Qed.

(** X11. When the storage backend rejects one of the writes of
    [initializeBeaconChain] but not the chain-head write, a handler with a
    valid genesis state fails and [waitForState] stays pending with the fork
    choice unchanged, yet the genesis block, the genesis state and the
    chain-head pointer are already in storage. *)
Theorem handler_write_rejected E i n w :
  handlers n !! i = Some E →
  isValidGenesisState config (genesisStateFor E (eth1 (chain n))) = true →
  noGenesisMismatch (genesisStateFor E (eth1 (chain n))) (db (chain n)) →
  db_rejects w = true →
  db_rejects StoreChainHead = false →
  let genesisState := genesisStateFor E (eth1 (chain n)) in
  wfs (fetched i n) = wfs n
  ∧ forkChoice (chain (fetched i n)) = forkChoice (chain n)
  ∧ eth1 (chain (fetched i n)) = eth1 (chain n)
  ∧ chain_head (db (chain (fetched i n)))
    = Some (BeaconBlock_hashTreeRoot config (genesisBlockOf genesisState))
  ∧ state_get (BeaconState_hashTreeRoot config genesisState) (db (chain (fetched i n)))
    = Some genesisState.
Proof.
  intros Hi Hval Hok Hw Hhead. cbn zeta.
  rewrite (fetched_exits E i n Hi). cbn zeta. rewrite Hval.
  match goal with
  | |- context [initializeBeaconChain ?S ?l ?c1] =>
      pose proof (initializeBeaconChain_rejects S l c1 w Hw) as [[e He] Hfc];
      pose proof (initializeBeaconChain_frame S l c1) as (Heth & _);
      pose proof (storeChainHead_survives S l c1 Hok Hhead) as (_ & Hs & Hh);
      destruct (initializeBeaconChain S l c1) as [r c2]
  end.
  cbn [fst snd] in He, Hfc, Heth, Hs, Hh. subst r. cbn.
  by rewrite Hfc, Heth.
Qed.

(** X12. A handler that was in flight when genesis was accepted is not
    stopped by it: if its state is valid and [initializeBeaconChain]
    succeeds, it overwrites the genesis records in storage and hands a
    second genesis node to the fork choice, while what [waitForState]
    returned stays as it was. *)
Theorem late_handler_overwrites E i n s :
  wfs n = Returned s →
  handlers n !! i = Some E →
  isValidGenesisState config (genesisStateFor E (eth1 (chain n))) = true →
  noGenesisMismatch (genesisStateFor E (eth1 (chain n))) (db (chain n)) →
  (∀ w, db_rejects w = false) →
  let genesisState := genesisStateFor E (eth1 (chain n)) in
  let roots := DepositData_hashTreeRoot config
                 <$> processPastDeposits None (number E) (eth1 (chain n)) in
  wfs (fetched i n) = Returned s
  ∧ (∀ w, committed genesisState roots w (db (chain (fetched i n))))
  ∧ forkChoice (chain (fetched i n))
    = addBlock (genesisNode genesisState) (forkChoice (chain n)).
Proof.
  intros Hw Hi Hval Hok Hno. cbn zeta.
  rewrite (fetched_exits E i n Hi). cbn zeta. rewrite Hval.
  rewrite initializeBeaconChain_fulfils by done.
  unfold resolve. cbn [wfs]. rewrite Hw. cbn.
  split_and!; [done| |done].
  intros w'. apply allCommitted_committed.
Qed.

(** One block whose state is valid, handled to its end while the promise
    is pending: what is left in the coordinator. *)
Lemma deliver_valid_chain E n :
  isValidGenesisState config (genesisStateFor E (eth1 (chain n))) = true →
  noGenesisMismatch (genesisStateFor E (eth1 (chain n))) (db (chain n)) →
  (∀ w, db_rejects w = false) →
  wfs n = AwaitingGenesis →
  handlers n = [] →
  blockListeners (eth1 (chain n)) = [GenesisListener] →
  eth1Listener (chain n) = Some GenesisListener →
  let n' := run [BlockEmitted E; DepositsFetched 0] n in
  db (chain n')
  = allCommitted (genesisStateFor E (eth1 (chain n)))
      (DepositData_hashTreeRoot config
         <$> processPastDeposits None (number E) (eth1 (chain n)))
      (db (chain n))
  ∧ forkChoice (chain n')
    = addBlock (genesisNode (genesisStateFor E (eth1 (chain n)))) (forkChoice (chain n))
  ∧ blockListeners (eth1 (chain n')) = []
  ∧ handlers n' = [].
Proof.
  intros Hval Hok Hno Hw Hh Hl Hfield n'. subst n'. cbn [run foldl step].
  rewrite (emit_subscribed _ _ Hl), Hh.
  rewrite (fetched_exits E 0) by done. cbn zeta.
  cbn [chain wfs handlers].
  change (eth1 (checkGenesis_begin E (chain n))) with (eth1 (chain n)).
  rewrite Hval, initializeBeaconChain_fulfils by done.
  unfold resolve. cbn [wfs]. rewrite Hw. unfold waitForState_return.
  cbn [chain eth1Listener logger_info with_forkChoice with_db checkGenesis_begin].
  rewrite Hfield. cbn. by rewrite Hl.
Qed.

(** X13. Handled in turn, with no write rejected and no mismatching block
    stored, the blocks up to the first one whose state is valid leave in
    storage the genesis records of that block, all six committed, the fork
    choice holds its genesis node and nothing else new, and the listener is
    gone; the blocks after it start no handler. *)
Theorem sequential_bootstrap_storage c0 c1 (pre post : list Eth1Block) E :
  waitForState c0 = (AwaitingGenesis, c1) →
  blockListeners (eth1 c0) = [] →
  Forall (λ B, isValidGenesisState config (genesisStateFor B (eth1 c0)) = false) pre →
  isValidGenesisState config (genesisStateFor E (eth1 c0)) = true →
  (∀ w, db_rejects w = false) →
  noGenesisMismatch (genesisStateFor E (eth1 c0)) (db c0) →
  let genesisState := genesisStateFor E (eth1 c0) in
  let roots := DepositData_hashTreeRoot config
                 <$> processPastDeposits None (number E) (eth1 c0) in
  let n := run (sequential (pre ++ E :: post))
             {| chain := c1; wfs := AwaitingGenesis; handlers := [] |} in
  (∀ w, committed genesisState roots w (db (chain n)))
  ∧ forkChoice (chain n) = addBlock (genesisNode genesisState) (forkChoice c0)
  ∧ blockListeners (eth1 (chain n)) = []
  ∧ handlers n = [].
Proof.
  intros [_ ->]%waitForState_awaiting Hl0 Hpre HE Hno Hok. cbn zeta.
  remember {| chain := with_eth1 (eth1_on GenesisListener (eth1 c0))
                         (with_eth1Listener GenesisListener
                            (logger_info LogNotStarted c0));
              wfs := AwaitingGenesis; handlers := [] |} as n1 eqn:Hn1.
  assert (eth1 (chain n1) = eth1_on GenesisListener (eth1 c0)
          ∧ db (chain n1) = db c0 ∧ forkChoice (chain n1) = forkChoice c0
          ∧ eth1Listener (chain n1) = Some GenesisListener
          ∧ wfs n1 = AwaitingGenesis ∧ handlers n1 = [])
    as (He1 & Hdb1 & Hfc1 & Hfl1 & Hw1 & Hh1) by (by subst n1).
  clear Hn1.
  assert (∀ B, genesisStateFor B (eth1 (chain n1)) = genesisStateFor B (eth1 c0))
    as Hlog.
  { intros B. apply genesisStateFor_log. by rewrite He1. }
  assert (blockListeners (eth1 (chain n1)) = [GenesisListener]) as Hl1.
  { rewrite He1. cbn. by rewrite Hl0. }
  rewrite sequential_app, run_app, sequential_cons, run_app.
  destruct (sequential_invalid pre n1) as (Hw & Hh & He & Hfl & Hdb & Hfc);
    [|done|done|].
  { eapply Forall_impl; [exact Hpre|]. intros B HB. cbn. by rewrite Hlog. }
  remember (run (sequential pre) n1) as n2 eqn:Hn2. clear Hn2.
  destruct (deliver_valid_chain E n2) as (Hdb3 & Hfc3 & Hl3 & Hh3).
  - by rewrite He, Hlog.
  - by rewrite He, Hlog, Hdb, Hdb1.
  - done.
  - congruence.
  - done.
  - by rewrite He.
  - congruence.
  - rewrite sequential_unsubscribed by done.
    split_and!; [|by rewrite Hfc3, He, Hlog, Hfc, Hfc1|done..].
    intros w. rewrite Hdb3, He, Hlog.
    replace (processPastDeposits None (number E) (eth1 (chain n1)))
      with (processPastDeposits None (number E) (eth1 c0))
      by (unfold processPastDeposits; by rewrite He1).
    apply allCommitted_committed.
Qed.

(** ** [start] on stored state, and [stop] *)

(** X14. When [getLatest] returns a stored state, [start] goes straight on:
    no listener is added, nothing is written to storage, and the fork
    choice is started but given no block. [start] then completes exactly
    when the state at the head state root that this fork choice reports is
    in storage. *)
Theorem start_from_stored_state c s :
  db_state_getLatest (db c) = Returns (Some s) →
  let r := start_resume (Some s) (start c).2 in
  (start c).1 = Returned (Some s)
  ∧ db r.2 = db c
  ∧ forkChoice r.2 = fc_start (genesisTime s) (forkChoice c)
  ∧ clock r.2 = Some (genesisTime s)
  ∧ (length (blockListeners (eth1 r.2)) ≤ length (blockListeners (eth1 c)))%nat
  ∧ (r.1 = Fulfilled tt
     ↔ is_Some (state_get (headStateRoot (fc_start (genesisTime s) (forkChoice c)))
                  (db c))).
Proof.
  intros Hlatest. cbn zeta. unfold start, waitForState.
  change (db (logger_info LogStartingChain c)) with (db c). rewrite Hlatest.
  unfold waitForState_return. cbn [fst snd].
  set (c1 := match eth1Listener (logger_info LogStartingChain c) with
             | Some l => _ | None => _ end).
  assert (db c1 = db c ∧ forkChoice c1 = forkChoice c
          ∧ (length (blockListeners (eth1 c1)) ≤ length (blockListeners (eth1 c)))%nat)
    as (Hdb & Hfc & Hlen).
  { subst c1. destruct (eth1Listener _); cbn; [|done].
    split_and!; try done; apply remove_last_length. }
  unfold start_resume, getCurrentForkDigest, getHeadState.
  cbn [forkChoice db with_clock logger_info with_forkChoice].
  rewrite Hdb, Hfc.
  destruct (state_get _ (db c)) as [hs|]; cbn.
  - split_and!; try done; split; by eauto.
  - split_and!; try done; split; try done; by intros [? ?].
Qed.

(** X15. When [getLatest] returns [null], [start] fails with a [TypeError]
    at [state.genesisTime]: no listener is added, the fork choice is not
    started, no clock is created and the digest is not computed. *)
Theorem start_with_null_state c :
  db_state_getLatest (db c) = Returns None →
  (start c).1 = Returned None
  ∧ start_resume None (start c).2 = (Rejected TypeError, (start c).2)
  ∧ db (start c).2 = db c
  ∧ forkChoice (start c).2 = forkChoice c
  ∧ clock (start c).2 = clock c
  ∧ currentForkDigest (start c).2 = currentForkDigest c
  ∧ (length (blockListeners (eth1 (start c).2)) ≤ length (blockListeners (eth1 c)))%nat.
Proof.
  intros Hlatest. unfold start, waitForState.
  change (db (logger_info LogStartingChain c)) with (db c). rewrite Hlatest.
  unfold waitForState_return. cbn [fst snd].
  destruct (eth1Listener _); cbn; split_and!; try done;
    apply remove_last_length.
Qed.

(** X16. [stop] on a coordinator that is still bootstrapping genesis,
    whatever eth1 events it has seen, fails with a [TypeError] at
    [this.clock.stop()]: the fork choice has been stopped, the block
    processor has not. *)
Theorem stop_while_bootstrapping (evs : list Event) n :
  clock (chain n) = None →
  stop (chain (run evs n)) = (Rejected TypeError, [ForkChoiceStop]).
Proof.
  intros Hc. destruct (run_frame evs n) as (Hclock & _).
  unfold stop. by rewrite Hclock, Hc.
Qed.

(** Once [start] has got a state from [waitForState], [stop] stops the
    fork choice, the clock and the block processor, in this order, also
    when [start] itself failed at the fork digest. *)
Theorem stop_after_start s c :
  stop (start_resume (Some s) c).2
  = (Fulfilled tt, [ForkChoiceStop; ClockStop; BlockProcessorStop]).
Proof.
  unfold start_resume. by destruct (getCurrentForkDigest _).
Qed.

End Lifecycle.

(** * The further properties on concrete inputs *)
Section LifecycleConcrete.

Import Sample Scenario.

#[local] Existing Instance sound.

(** Witness for X3: the call at [state2] on empty storage; the fork choice
    takes the node it was given as head. *)
Lemma head_after_initializeBeaconChain_witness :
  initializeBeaconChain state2 [] chain0
  = (Fulfilled tt, (initializeBeaconChain state2 [] chain0).2)
  ∧ getHeadState (initializeBeaconChain state2 [] chain0).2 = Some state2
  ∧ (stateRoot ∘ message <$> getHeadBlock (initializeBeaconChain state2 [] chain0).2)
    = Some (BeaconState_hashTreeRoot cfg state2).
Proof.
  assert (initializeBeaconChain state2 [] chain0
          = (Fulfilled tt, (initializeBeaconChain state2 [] chain0).2)) as Hcall
    by (vm_compute; reflexivity).
  destruct (head_after_initializeBeaconChain state2 [] chain0 _ Hcall eq_refl eq_refl)
    as (Hs & _ & Hb).
  split_and!; [exact Hcall | exact Hs | exact Hb].
Defined.

(** Witness for X4: [start] resumed after that call. *)
Lemma start_after_genesis_witness :
  initializeBeaconChain state2 [] chain0
  = (Fulfilled tt, (initializeBeaconChain state2 [] chain0).2)
  ∧ ∃ c'', start_resume (Some state2) (initializeBeaconChain state2 [] chain0).2
           = (Fulfilled tt, c'')
           ∧ currentForkDigest c'' = Some version0
           ∧ clock c'' = Some 20.
Proof.
  assert (initializeBeaconChain state2 [] chain0
          = (Fulfilled tt, (initializeBeaconChain state2 [] chain0).2)) as Hcall
    by (vm_compute; reflexivity).
  destruct (start_after_genesis state2 [] chain0 _ Hcall eq_refl)
    as (c'' & Hstart & Hdigest & Hclock & _).
  split; [exact Hcall|]. exists c''. split_and!; [exact Hstart | exact Hdigest | exact Hclock].
Defined.


(** Witness for X7: the handler of [block2] ends after [waitForState] has
    returned the state of [block3]. *)
Lemma returned_is_final_witness :
  wfs overlapped = Returned (Some state3)
  ∧ wfs (run [DepositsFetched 0; BlockEmitted block1] overlapped)
    = Returned (Some state3).
Proof.
  assert (wfs overlapped = Returned (Some state3)) as Hw by (vm_compute; reflexivity).
  split; [exact Hw|].
  exact (returned_is_final [DepositsFetched 0; BlockEmitted block1] overlapped _ Hw).
Defined.

(** Witness for X8: overlapping handlers of [block2] and [block3]. *)
Lemma resolved_state_is_valid_genesis_witness :
  wfs (run [BlockEmitted block2; BlockEmitted block3;
            DepositsFetched 1; DepositsFetched 0] waiting)
  = Returned (Some state3)
  ∧ ∃ E, BlockEmitted E
           ∈ [BlockEmitted block2; BlockEmitted block3;
              DepositsFetched 1; DepositsFetched 0]
         ∧ Some state3 = Some (genesisStateFor E (eth1 (chain waiting)))
         ∧ isValidGenesisState config (genesisStateFor E (eth1 (chain waiting))) = true.
Proof.
  assert (wfs (run [BlockEmitted block2; BlockEmitted block3;
                    DepositsFetched 1; DepositsFetched 0] waiting)
          = Returned (Some state3)) as Hret by (vm_compute; reflexivity).
  split; [exact Hret|].
  exact (resolved_state_is_valid_genesis _ waiting _ eq_refl eq_refl Hret).
Defined.

(** Witness for X9: [block1] emitted twice, handlers overlapping. *)
Lemma no_valid_block_no_writes_witness :
  isValidGenesisState config (genesisStateFor block1 (eth1 (chain waiting))) = false
  ∧ db (chain (run [BlockEmitted block1; BlockEmitted block1;
                    DepositsFetched 1; DepositsFetched 0] waiting))
    = Db_empty
  ∧ wfs (run [BlockEmitted block1; BlockEmitted block1;
              DepositsFetched 1; DepositsFetched 0] waiting)
    = AwaitingGenesis.
Proof.
  assert (isValidGenesisState config (genesisStateFor block1 (eth1 (chain waiting)))
          = false) as Hinv by (vm_compute; reflexivity).
  destruct (no_valid_block_no_writes
              [BlockEmitted block1; BlockEmitted block1;
               DepositsFetched 1; DepositsFetched 0] waiting eq_refl)
    as (Hdb & _ & _ & Hw).
  - intros E Hin.
    repeat (apply elem_of_cons in Hin as [Heq|Hin];
            [first [discriminate Heq | injection Heq as ->; exact Hinv]|]).
    by apply elem_of_nil in Hin.
  - split_and!; [exact Hinv | exact Hdb | exact Hw].
Defined.

(** Witness for X10: storage holds the genesis block of [state3], the
    handler of [block2] builds [state2]. *)
Lemma handler_genesis_mismatch_witness :
  isValidGenesisState config (genesisStateFor block2 (eth1 (chain mismatching))) = true
  ∧ wfs (fetched 0 mismatching) = AwaitingGenesis
  ∧ db (chain (fetched 0 mismatching)) = db chainOfState3
  ∧ handlers (fetched 0 mismatching) = [].
Proof.
  assert (isValidGenesisState config
            (genesisStateFor block2 (eth1 (chain mismatching))) = true) as Hval
    by (vm_compute; reflexivity).
  assert (getBlockBySlot GENESIS_SLOT (db (chain mismatching))
          = Some {| message := genesisBlockOf state3; signature := replicate 96 x00 |})
    as Hb by (vm_compute; reflexivity).
  assert (stateRoot (message {| message := genesisBlockOf state3;
                                signature := replicate 96 x00 |})
          ≠ BeaconState_hashTreeRoot config
              (genesisStateFor block2 (eth1 (chain mismatching)))) as Hne
    by (vm_compute; discriminate).
  destruct (handler_genesis_mismatch block2 0 mismatching _ eq_refl Hval Hb Hne)
    as (_ & Hw & Hdb & _ & _ & Hh).
  split_and!; [exact Hval | exact Hw | exact Hdb | exact Hh].
Defined.

(** Witness for X12: the handler of [block2] ends after genesis was
    accepted from [block3]. *)
Lemma late_handler_overwrites_witness :
  wfs overlapped = Returned (Some state3)
  ∧ wfs (fetched 0 overlapped) = Returned (Some state3)
  ∧ getHeadState (chain (fetched 0 overlapped)) = Some state2
  ∧ length (forkChoice (chain (fetched 0 overlapped))) = 2%nat.
Proof.
  assert (wfs overlapped = Returned (Some state3)) as Hw by (vm_compute; reflexivity).
  assert (isValidGenesisState config
            (genesisStateFor block2 (eth1 (chain overlapped))) = true) as Hval
    by (vm_compute; reflexivity).
  assert (noGenesisMismatch (genesisStateFor block2 (eth1 (chain overlapped)))
            (db (chain overlapped))) as Hok.
  { intros b Hb. vm_compute in Hb. discriminate Hb. }
  destruct (late_handler_overwrites block2 0 overlapped _ Hw eq_refl Hval Hok
              (λ _, eq_refl)) as (Hw' & Hcommitted & Hfc).
  split_and!; [exact Hw | exact Hw' | | by rewrite Hfc].
  vm_compute. reflexivity.
Defined.

(** Witness for X13: [block1] fails, [block2] is accepted, [block3] comes
    after. *)
Lemma sequential_bootstrap_storage_witness :
  waitForState chain0 = (AwaitingGenesis, chain waiting)
  ∧ chain_head (db (chain (run (sequential ([block1] ++ block2 :: [block3])) waiting)))
    = Some (BeaconBlock_hashTreeRoot cfg (genesisBlockOf state2))
  ∧ (blockRootBuf
       <$> forkChoice (chain (run (sequential ([block1] ++ block2 :: [block3])) waiting)))
    = [BeaconBlock_hashTreeRoot cfg (genesisBlockOf state2)].
Proof.
  assert (waitForState chain0 = (AwaitingGenesis, chain waiting)) as Hwait
    by (vm_compute; reflexivity).
  assert (isValidGenesisState config (genesisStateFor block1 (eth1 chain0)) = false)
    as H1 by (vm_compute; reflexivity).
  assert (isValidGenesisState config (genesisStateFor block2 (eth1 chain0)) = true)
    as H2 by (vm_compute; reflexivity).
  assert (noGenesisMismatch (genesisStateFor block2 (eth1 chain0)) (db chain0)) as Hok.
  { intros b Hb. vm_compute in Hb. discriminate Hb. }
  destruct (sequential_bootstrap_storage chain0 (chain waiting) [block1] [block3] block2
              Hwait eq_refl (Forall_cons_2 _ _ _ H1 (Forall_nil_2 _)) H2
              (λ _, eq_refl) Hok) as (Hcommitted & Hfc & _ & _).
  split_and!;
    [exact Hwait
    | exact (proj2 (proj2 (Hcommitted StoreChainHead)))
    | exact (f_equal (fmap (M := list) blockRootBuf) Hfc)].
Defined.

(** Witness for X16: [stop] after one eth1 block that gave no genesis. *)
Lemma stop_while_bootstrapping_witness :
  clock (chain waiting) = None
  ∧ stop (chain (run (sequential [block1]) waiting))
    = (Rejected TypeError, [ForkChoiceStop]).
Proof.
  split; [reflexivity|].
  exact (stop_while_bootstrapping (sequential [block1]) waiting eq_refl).
Defined.

End LifecycleConcrete.

Section LifecycleRejection.

Import Sample Scenario.

#[local] Existing Instance faulty.

(** Witness for X11: the backend rejects the write of the finalized state
    root while the handler of [block2] is in flight. *)
Lemma handler_write_rejected_witness :
  db_rejects SetFinalizedStateRoot = true
  ∧ wfs (fetched 0 suspended) = AwaitingGenesis
  ∧ forkChoice (chain (fetched 0 suspended)) = []
  ∧ state_get (BeaconState_hashTreeRoot cfg state2) (db (chain (fetched 0 suspended)))
    = Some state2.
Proof.
  assert (isValidGenesisState config (genesisStateFor block2 (eth1 (chain suspended)))
          = true) as Hval by (vm_compute; reflexivity).
  assert (noGenesisMismatch (genesisStateFor block2 (eth1 (chain suspended)))
            (db (chain suspended))) as Hok.
  { intros b Hb. vm_compute in Hb. discriminate Hb. }
  destruct (handler_write_rejected block2 0 suspended SetFinalizedStateRoot
              eq_refl Hval Hok eq_refl eq_refl) as (Hw & Hfc & _ & _ & Hs).
  split_and!; [reflexivity | exact Hw | exact Hfc | exact Hs].
Defined.

End LifecycleRejection.

Section LifecycleRestart.

Import Sample Scenario.

(** Witness for X14: a coordinator constructed anew over bootstrapped
    storage. Its fork choice is empty, the head state root it reports names
    no stored state, and [start] fails. *)
Lemma start_from_stored_state_witness :
  db_state_getLatest (Collaborators := restarting) (db restarted) = Returns (Some state2)
  ∧ (start (env := restarting) restarted).1 = Returned (Some state2)
  ∧ forkChoice (start_resume (env := restarting) (Some state2)
                  (start (env := restarting) restarted).2).2 = []
  ∧ (start_resume (env := restarting) (Some state2)
       (start (env := restarting) restarted).2).1 = Rejected TypeError.
Proof.
  destruct (start_from_stored_state (env := restarting) restarted state2 eq_refl)
    as (Hw & _ & Hfc & _ & _ & _).
  split_and!; [reflexivity | exact Hw | exact Hfc | vm_compute; reflexivity].
Defined.

(** Witness for X15: [getLatest] returns [null]. *)
Lemma start_with_null_state_witness :
  db_state_getLatest (Collaborators := nullLatest) (db chain0) = Returns None
  ∧ (start (env := nullLatest) chain0).1 = Returned None
  ∧ clock (start (env := nullLatest) chain0).2 = None
  ∧ blockListeners (eth1 (start (env := nullLatest) chain0).2) = [].
Proof.
  destruct (start_with_null_state (env := nullLatest) chain0 eq_refl)
    as (Hw & _ & _ & _ & Hclock & _ & _).
  split_and!; [reflexivity | exact Hw | exact Hclock | reflexivity].
Defined.

End LifecycleRestart.
